(** * Risk predictor adapter: a shallow embedding of [main.py]

    The request handler [predict_risks] maps a five-trait personality
    profile to five risk scores, one per trained model.  For every model it
    introspects the expected input width, pads or trims the feature vector,
    calls the model, retries once when a [ValueError] reports a wider
    expected shape, coerces the prediction to a float and clamps it to
    [0, 100].

    Python values are embedded as follows.
    - [float] is IEEE binary64: Rocq's primitive [float].
    - [int] is [Z].
    - [str] is a list of Unicode code points; the decimal digits of the
      Unicode database, which the regex class [\d] and [int()] read, are a
      parameter of the development.  The names of risks, attributes and
      files, which the program writes as ASCII literals, are [string]s.
    - a model object is a record of its attribute dictionary and its
      [predict] method; the method may read and update the state of the
      world outside the handler.
    - [raise]/[try]/[except] become a sum type threaded through a small
      state-and-error monad whose state also logs every call of [predict];
      an exception that no handler of the program catches leaves the
      request handler as it is.
    - the limits of the interpreter that the handler can hit
      ([sys.maxsize], the digit limit of [int()], the memory left for a
      list) are parameters too. *)

From Stdlib Require Import Floats ZArith String Ascii.
From stdpp Require Import gmap strings list.

#[local] Set Warnings "-inexact-float,-clear-no-such-hyp".

Local Open Scope string_scope.
Local Open Scope list_scope.
Local Open Scope Z_scope.

(** ** Floats: [min], [max] and the clamp of line 128 *)

Module PyFloat.

(** [min(a, b)]: the builtin keeps the first argument unless a later one
    compares strictly smaller. *)
Definition py_min (a b : float) : float :=
  if PrimFloat.ltb b a then b else a.

(** [max(a, b)]: the builtin keeps the first argument unless a later one
    compares strictly greater. *)
Definition py_max (a b : float) : float :=
  if PrimFloat.ltb a b then b else a.

(** [max(0.0, min(100.0, val))] *)
Definition clamp (val : float) : float :=
  py_max 0%float (py_min 100%float val).

(** [lo <= v <= hi] on floats. *)
Definition between (lo hi v : float) : Prop :=
  PrimFloat.leb lo v = true ∧ PrimFloat.leb v hi = true.

(** [float(z)] for an [int]: the nearest binary64, ties to even. *)
Definition int_to_float (z : Z) : float :=
  SF2Prim (binary_normalize prec emax z 0 false).

End PyFloat.
Export PyFloat.

(** ** Text *)

(** A Python [str]: its code points in order. *)
Abbreviation text := (list N) (only parsing).

(** The text of an ASCII literal of the program. *)
Definition codes (s : string) : text :=
  map N_of_ascii (list_ascii_of_string s).

(** ** Python objects that models hand back *)

Inductive pyobj : Type :=
| PyNone
| PyInt (z : Z)
| PyFloat (f : float)
| PyStr (s : text).

(** Truncation toward zero of a finite float, as [int(f)] does. *)
Definition float_trunc (f : float) : option Z :=
  match Prim2SF f with
  | S754_zero _ => Some 0
  | S754_finite s m e =>
      let a := Z.shiftl (Z.pos m) e in
      Some (if s then - a else a)
  | S754_infinity _ => None   (* OverflowError *)
  | S754_nan => None          (* ValueError *)
  end.

(** ** The regular expression of line 102 *)

Module Re.

(** The fragment of [re] syntax the pattern uses. *)
Inductive regex : Type :=
| ReLit (lit : text)              (* literal text *)
| RePlus (cls : N → bool)         (* [cls+], greedy *)
| ReGroup (r : regex)             (* ( r ) *)
| ReSeq (r1 r2 : regex).          (* r1 r2 *)

(** Strip a literal prefix. *)
Fixpoint match_lit (lit s : text) : option text :=
  match lit, s with
  | [], _ => Some s
  | a :: lit', b :: s' =>
      if N.eqb a b then match_lit lit' s' else None
  | _ :: _, [] => None
  end.

(** One or more characters of [cls]: the longest run is tried first and
    shorter runs on backtracking. *)
Fixpoint match_plus {R} (cls : N → bool) (s : text)
    (k : text → option R) : option R :=
  match s with
  | [] => None
  | c :: rest =>
      if cls c then
        match match_plus cls rest k with
        | Some r => Some r
        | None => k rest
        end
      else None
  end.

(** The text between the start [s] of a group and the remainder [rest]. *)
Definition consumed (s rest : text) : text :=
  take (length s - length rest) s.

(** Backtracking matcher in continuation-passing style; [groups] collects
    the captured texts in order. *)
Fixpoint re_match (r : regex) (s : text) (groups : list text)
    (k : text → list text → option (list text)) : option (list text) :=
  match r with
  | ReLit lit =>
      match match_lit lit s with
      | Some rest => k rest groups
      | None => None
      end
  | RePlus cls => match_plus cls s (λ rest, k rest groups)
  | ReGroup r' =>
      re_match r' s groups (λ rest g, k rest (g ++ [consumed s rest]))
  | ReSeq r1 r2 =>
      re_match r1 s groups (λ rest g, re_match r2 rest g k)
  end.

(** [re.search]: the leftmost position at which the pattern matches. *)
Fixpoint re_search (r : regex) (s : text) : option (list text) :=
  match re_match r s [] (λ _ g, Some g) with
  | Some g => Some g
  | None =>
      match s with
      | [] => None
      | _ :: rest => re_search r rest
      end
  end.

(** A character class written out: [[: ]] is [one_of (codes ": ")]. *)
Definition one_of (cs : text) (c : N) : bool :=
  bool_decide (c ∈ cs).

(** Concatenation of the items of a pattern, left to right. *)
Definition re_concat (items : list regex) : regex :=
  foldr ReSeq (ReLit []) items.

(** [m.group(i)], groups numbered from 1. *)
Definition group (m : list text) (i : nat) : text :=
  default [] (m !! pred i).

(** [needle in hay] *)
Fixpoint contains (needle hay : text) : bool :=
  match match_lit needle hay with
  | Some _ => true
  | None =>
      match hay with
      | [] => false
      | _ :: rest => contains needle rest
      end
  end.

(** Lower case of the letters A to Z. *)
Definition lower_code (c : N) : N :=
  if (65 <=? c)%N && (c <=? 90)%N then (c + 32)%N else c.

Definition lower (s : text) : text := map lower_code s.

(** The search as the specification words it, "case-insensitive": the
    pattern is all lower case, so this is the search on the lower-cased
    text.  The handler does not use it; it is here to be compared with
    [re_search]. *)
Definition spec_search_ignoring_case (r : regex) (s : text) : option (list text) :=
  re_search r (lower s).

(** The number a run of digits denotes, most significant first, given the
    value of each digit. *)
Fixpoint int_of_digits_from (value : N → Z) (acc : Z) (s : text) : Z :=
  match s with
  | [] => acc
  | c :: rest => int_of_digits_from value (10 * acc + value c) rest
  end.

End Re.
Export Re.

(** ** The interpreter *)

(** What the handler takes from the interpreter and its libraries, and
    the program text does not show.
    - [str_to_float], [str_to_int]: [float(s)] and [int(s)] for a string
      [s] that a model hands back; [None] when the builtin raises.
    - [decimal]: the Unicode database, [unicodedata.decimal]: the value of
      a code point of category Nd, the characters that [\d] matches in a
      [str] pattern and that [int()] reads.
    - [maxsize]: [sys.maxsize], the largest length of a list.
    - [int_max_str_digits]: [sys.get_int_max_str_digits()], the longest
      run of digits [int()] converts; [0] is no limit. *)
Class Interpreter : Type := {
  str_to_float : text → option float;
  str_to_int : text → option Z;
  decimal : N → option Z;
  maxsize : Z;
  int_max_str_digits : nat
}.

(** Whether the process, in a given state of the world, has the memory
    for a list of [n] floats. *)
Class Memory (world : Type) : Type := {
  can_allocate : world → Z → bool
}.

Section Pattern.

Context {py : Interpreter}.

(** [\d] *)
Definition is_digit (c : N) : bool := bool_decide (is_Some (decimal c)).

(** [r"expected[: ]+(\d+)[, ]+got[: ]+(\d+)"] *)
Definition SHAPE_RE : regex :=
  re_concat
    [ ReLit (codes "expected"); RePlus (one_of (codes ": "));
      ReGroup (RePlus is_digit);
      RePlus (one_of (codes ", ")); ReLit (codes "got");
      RePlus (one_of (codes ": "));
      ReGroup (RePlus is_digit) ].

Definition digit_value (c : N) : Z := default 0 (decimal c).

(** The integer that a run of decimal digits denotes. *)
Definition int_of_digits (s : text) : Z := int_of_digits_from digit_value 0 s.

(** [int(s)] for a run [s] of decimal digits, as the pattern captures
    it: [None] is the [ValueError] for a run longer than the limit. *)
Definition py_int_digits (s : text) : option Z :=
  if negb (Nat.eqb int_max_str_digits 0) && (int_max_str_digits <? length s)%nat
  then None
  else Some (int_of_digits s).

(** Two facts of the Unicode database, in every version of it: of the
    ASCII characters exactly [0] to [9] are decimal digits, with their
    usual values; and the value of a decimal digit is between 0 and 9. *)
Definition unicode_decimal_digits : Prop :=
  (∀ c : N, (c < 128)%N →
     decimal c = if (48 <=? c)%N && (c <=? 57)%N then Some (Z.of_N c - 48) else None)
  ∧ (∀ (c : N) (d : Z), decimal c = Some d → 0 ≤ d ≤ 9).

End Pattern.

(** ** Exceptions *)

(** What the handler distinguishes about an exception raised by a model:
    whether [except ValueError] catches it, whether [except Exception]
    does, and its [str()].  [NoException] is the class of the exceptions
    outside [Exception], such as [KeyboardInterrupt] and [SystemExit]. *)
Inductive exn_class : Type := ValueError | OtherException | NoException.

Record py_exn : Type := PyExn { exn_class_of : exn_class; exn_str : text }.

(** [HTTPException(status_code=..., detail=...)] *)
Record HTTPException : Type :=
  mkHTTPException { status_code : Z; detail : text }.

(** The exceptions that leave the handler and are no [HTTPException]:
    no [except] clause of the program is around the place that raises
    them, or none catches their class. *)
Inductive uncaught : Type :=
| ListOverflowError              (* [[0.0] * n] with [n] above [sys.maxsize] *)
| ListMemoryError                (* [[0.0] * n] without the memory for it *)
| IntValueError                  (* [int(m.group(1))] beyond the digit limit *)
| FromModel (e : py_exn).        (* raised by [predict], outside [Exception] *)

(** How a request fails: the handler raised an [HTTPException], another
    exception left it, or the response model rejected the results. *)
Inductive failure : Type :=
| Raised (e : HTTPException)
| Escaped (x : uncaught)
| ResponseInvalid.

(** ** Request and response schemas *)

Record PersonalityInput : Type := {
  openness : Z;
  conscientiousness : Z;
  extraversion : Z;
  agreeableness : Z;
  neuroticism : Z
}.

(** [conint(ge=0, le=100)] on every field. *)
Definition valid_input (input : PersonalityInput) : Prop :=
  Forall (λ z, 0 ≤ z ≤ 100)
    [openness input; conscientiousness input; extraversion input;
     agreeableness input; neuroticism input].

Record RiskScores : Type := {
  phishing_risk : float;
  weak_password_risk : float;
  oversharing_risk : float;
  emotional_manipulation_risk : float;
  update_ignorance_risk : float
}.

(** The keys of [MODEL_PATHS], in insertion order. *)
Definition RISK_NAMES : list string :=
  [ "phishing_risk"; "weak_password_risk"; "oversharing_risk";
    "emotional_manipulation_risk"; "update_ignorance_risk" ].

Definition MODEL_PATHS : list (string * string) :=
  [ ("phishing_risk", "models/phishing_risk_model.pkl");
    ("weak_password_risk", "models/weak_password_risk_model.pkl");
    ("oversharing_risk", "models/oversharing_risk_model.pkl");
    ("emotional_manipulation_risk", "models/emotional_manipulation_risk_model.pkl");
    ("update_ignorance_risk", "models/update_ignorance_risk_model.pkl") ].

(** The constructor [RiskScores] applied to the keyword arguments
    [results] (line 130): every field must be among them; [None] stands
    for the validation error raised otherwise. *)
Definition RiskScores_of_kwargs (results : gmap string float) : option RiskScores :=
  a ← results !! "phishing_risk";
  b ← results !! "weak_password_risk";
  c ← results !! "oversharing_risk";
  d ← results !! "emotional_manipulation_risk";
  e ← results !! "update_ignorance_risk";
  Some {| phishing_risk := a; weak_password_risk := b; oversharing_risk := c;
          emotional_manipulation_risk := d; update_ignorance_risk := e |}.

(** The response body: the fields of the response model by name. *)
Definition RiskScores_dict (rs : RiskScores) : gmap string float :=
  <["phishing_risk" := phishing_risk rs]>
  (<["weak_password_risk" := weak_password_risk rs]>
  (<["oversharing_risk" := oversharing_risk rs]>
  (<["emotional_manipulation_risk" := emotional_manipulation_risk rs]>
  (<["update_ignorance_risk" := update_ignorance_risk rs]> ∅)))).

(** ** Lists: slices and repetition *)

(** [l[:n]]; a negative [n] counts from the end. *)
Definition py_slice_to {A} (l : list A) (n : Z) : list A :=
  if n <? 0 then take (length l - Z.to_nat (- n)) l
  else take (Z.to_nat n) l.

(** The list of [n] zeros, empty when [n <= 0]: the value of
    [[0.0] * n] when the interpreter builds it. *)
Definition zeros (n : Z) : list float := replicate (Z.to_nat n) 0%float.

(** [len(l)] *)
Definition len {A} (l : list A) : Z := Z.of_nat (length l).

(** ** The adapter *)

(** [batch[0]] on the value a model returns. *)
Definition index0 (batch : list pyobj) : py_exn + pyobj :=
  match batch with
  | [] => inl (PyExn OtherException (codes "list index out of range"))
  | y :: _ => inr y
  end.

Section Adapter.

(** State outside the handler that a model's [predict] may read and
    write (its own fitted parameters, caches, counters).  The handler is
    verified for every [world], every interpreter and every behaviour of
    the memory. *)
Context {world : Type} {py : Interpreter} {mem : Memory world}.

(** [float(x)]; [None] when it raises. *)
Definition py_float (x : pyobj) : option float :=
  match x with
  | PyNone => None
  | PyInt z =>
      let f := int_to_float z in
      if is_infinity f then None else Some f
  | PyFloat f => Some f
  | PyStr s => str_to_float s
  end.

(** [int(x)]; [None] when it raises. *)
Definition py_int (x : pyobj) : option Z :=
  match x with
  | PyNone => None
  | PyInt z => Some z
  | PyFloat f => float_trunc f
  | PyStr s => str_to_int s
  end.

(** A loaded model: its instance attributes and its [predict] method.
    [predict] takes a batch of feature vectors and either raises or
    returns a batch of predictions. *)
Record model : Type := {
  attrs : gmap string pyobj;
  predict : list (list float) → world → (py_exn + list pyobj) * world
}.

Definition hasattr (m : model) (name : string) : bool :=
  bool_decide (is_Some (attrs m !! name)).

Definition getattr (m : model) (name : string) : option pyobj :=
  attrs m !! name.

(** *** Startup: lines 17-22 *)

(** How the module fails to load: the [RuntimeError] of line 20 with its
    message, or the exception that [joblib.load] raised. *)
Inductive startup_error : Type :=
| ModelFileNotFound (message : string)
| LoadRaised (e : py_exn).

(** [models[risk] = value] on an insertion-ordered dictionary. *)
Fixpoint dict_set (models : list (string * model)) (risk : string) (value : model)
    : list (string * model) :=
  match models with
  | [] => [(risk, value)]
  | (k, v) :: rest =>
      if String.eqb k risk then (k, value) :: rest
      else (k, v) :: dict_set rest risk value
  end.

(** The loading loop.  [path_exists] is [os.path.exists]; [joblib_load]
    is [joblib.load], which returns the model or raises. *)
Fixpoint load_from (path_exists : string → bool) (joblib_load : string → py_exn + model)
    (paths : list (string * string)) (models : list (string * model))
    : startup_error + list (string * model) :=
  match paths with
  | [] => inr models
  | (risk, path) :: rest =>
      if negb (path_exists path)
      then inl (ModelFileNotFound ("Model file not found: " +:+ path))
      else
        match joblib_load path with
        | inl e => inl (LoadRaised e)
        | inr value =>
            load_from path_exists joblib_load rest (dict_set models risk value)
        end
  end.

Definition load_models (path_exists : string → bool) (joblib_load : string → py_exn + model)
    : startup_error + list (string * model) :=
  load_from path_exists joblib_load MODEL_PATHS [].

(** *** The monad of the handler *)

(** The state of a run: the world, and the log of every call
    [model.predict([features])] made so far, tagged with the risk name of
    the model called. *)
Record run_state : Type := {
  ext : world;
  calls : list (string * list float)
}.

(** A computation that may raise an [E]. *)
Definition M (E A : Type) : Type := run_state → (E + A) * run_state.

Definition ret {E A} (a : A) : M E A := λ st, (inr a, st).

Definition raise {E A} (e : E) : M E A := λ st, (inl e, st).

Definition bind {E A B} (c : M E A) (k : A → M E B) : M E B :=
  λ st, match c st with
        | (inr a, st') => k a st'
        | (inl e, st') => (inl e, st')
        end.

(** [try: c  except ... as e: handler e] *)
Definition try_except {E E' A} (c : M E A) (handler : E → M E' A) : M E' A :=
  λ st, match c st with
        | (inr a, st') => (inr a, st')
        | (inl e, st') => handler e st'
        end.

Notation "'do' x <- c ; k" := (bind c (λ x, k))
  (at level 10, x name, c at level 100, k at level 200).

(** *** The request handler: lines 59-130 *)

(** Whether the interpreter builds a list of [n] floats in the world
    [w]: an empty list always; otherwise [n] must not be above
    [sys.maxsize] and the memory must be there. *)
Definition padding_fits (w : world) (n : Z) : bool :=
  (n <=? 0) || ((n <=? maxsize) && can_allocate w n).

(** The exception of a list that is not built: [OverflowError] above
    [sys.maxsize], [MemoryError] below. *)
Definition padding_exception (n : Z) : uncaught :=
  if n >? maxsize then ListOverflowError else ListMemoryError.

(** [[0.0] * n].  No handler of the program catches what it raises
    where it is written (lines 92 and 107). *)
Definition py_zeros (n : Z) : M failure (list float) :=
  λ st,
    if padding_fits (ext st) n then (inr (zeros n), st)
    else (inl (Escaped (padding_exception n)), st).

(** [model.predict([features])[0]]: a batch of one vector goes in, the
    first element of the returned batch comes out; the call is logged. *)
Definition predict_first (risk : string) (m : model) (features : list float)
    : M py_exn pyobj :=
  λ st,
    let '(out, w) := predict m [features] (ext st) in
    let st' := {| ext := w; calls := calls st ++ [(risk, features)] |} in
    match out with
    | inl e => (inl e, st')
    | inr batch => (index0 batch, st')
    end.

(** Lines 76-86: the expected feature count, from the first attribute
    that is present. *)
Definition detect_expected (m : model) : option Z :=
  if hasattr m "n_features_in_" then
    getattr m "n_features_in_" ≫= py_int
  else if hasattr m "n_features_" then
    getattr m "n_features_" ≫= py_int
  else None.

(** Lines 89-94: pad or trim to the expected count. *)
Definition reshape (expected : option Z) (features : list float)
    : M failure (list float) :=
  match expected with
  | Some expected =>
      if negb (expected =? len features) then
        if expected >? len features then
          do padding <- py_zeros (expected - len features);
          ret (features ++ padding)
        else ret (py_slice_to features expected)
      else ret features
  | None => ret features
  end.

Definition prediction_error (msg : text) : HTTPException :=
  mkHTTPException 500 (codes "Prediction error: " ++ msg).

Definition padding_error (msg : text) : HTTPException :=
  mkHTTPException 500 (codes "Prediction error after padding: " ++ msg).

Definition non_numeric_error (risk : string) : HTTPException :=
  mkHTTPException 500 (codes "Model returned non-numeric prediction for " ++ codes risk).

(** Lines 107-113: the padded retry.  [except Exception] does not catch
    an exception outside [Exception]. *)
Definition retry_padded (risk : string) (m : model) (features : list float)
    : M failure pyobj :=
  try_except (predict_first risk m features)
    (λ e2, match exn_class_of e2 with
           | NoException => raise (Escaped (FromModel e2))
           | _ => raise (Raised (padding_error (exn_str e2)))
           end).

(** Lines 100-117: the body of [except ValueError as e].  What [int()]
    or the list repetition raises here is raised while the handler of the
    [try] runs, so the [except Exception] of line 118 does not see it. *)
Definition on_value_error (risk : string) (m : model) (features : list float)
    (e : py_exn) : M failure pyobj :=
  let msg := exn_str e in
  match re_search SHAPE_RE msg with
  | Some mt =>
      match py_int_digits (group mt 1) with
      | Some exp =>
          if exp >? len features then
            do padding <- py_zeros (exp - len features);
            let features := features ++ padding in
            retry_padded risk m features
          else raise (Raised (prediction_error msg))
      | None => raise (Escaped IntValueError)
      end
  | None => raise (Raised (prediction_error msg))
  end.

(** Lines 97-120: the prediction attempt with its two handlers. *)
Definition obtain_prediction (risk : string) (m : model) (features : list float)
    : M failure pyobj :=
  try_except (predict_first risk m features)
    (λ e, match exn_class_of e with
          | ValueError => on_value_error risk m features e
          | OtherException => raise (Raised (prediction_error (exn_str e)))
          | NoException => raise (Escaped (FromModel e))
          end).

(** Lines 123-128: coerce to a float and clamp. *)
Definition to_score (risk : string) (pred : pyobj) : M failure float :=
  match py_float pred with
  | Some val => ret (clamp val)
  | None => raise (Raised (non_numeric_error risk))
  end.

(** Lines 72-128: the body of the loop for one model. *)
Definition score_model (risk : string) (m : model) (base_features : list float)
    : M failure float :=
  let features := base_features in
  let expected := detect_expected m in
  do features <- reshape expected features;
  do pred <- obtain_prediction risk m features;
  to_score risk pred.

(** Lines 71-128: the loop over [models.items()]. *)
Fixpoint predict_loop (items : list (string * model)) (base_features : list float)
    (results : gmap string float) : M failure (gmap string float) :=
  match items with
  | [] => ret results
  | (risk, m) :: rest =>
      do val <- score_model risk m base_features;
      predict_loop rest base_features (<[risk := val]> results)
  end.

(** Lines 62-68. *)
Definition base_features (input : PersonalityInput) : list float :=
  [ int_to_float (openness input);
    int_to_float (conscientiousness input);
    int_to_float (extraversion input);
    int_to_float (agreeableness input);
    int_to_float (neuroticism input) ].

Definition predict_risks (models : list (string * model)) (input : PersonalityInput)
    : M failure RiskScores :=
  do results <- predict_loop models (base_features input) ∅;
  match RiskScores_of_kwargs results with
  | Some scores => ret scores
  | None => raise ResponseInvalid
  end.

(** No model fails in the run of the loop that starts in [st]: each
    model is scored in the state its predecessors left. *)
Fixpoint every_model_scores (items : list (string * model)) (base_features : list float)
    (st : run_state) : Prop :=
  match items with
  | [] => True
  | (risk, m) :: rest =>
      match score_model risk m base_features st with
      | (inr _, st') => every_model_scores rest base_features st'
      | (inl _, _) => False
      end
  end.

(** A model whose [predict] leaves the world as it found it. *)
Definition unchanged_by_predict (m : model) : Prop :=
  ∀ batch w, (predict m batch w).2 = w.

(** A computation whose outcome and effect on the world depend on the
    world only, not on the log of calls. *)
Definition ext_only {E A} (c : M E A) : Prop :=
  ∀ st st', ext st = ext st' →
    (c st).1 = (c st').1 ∧ ext (c st).2 = ext (c st').2.

(** A computation that leaves the world as it found it. *)
Definition keeps_ext {E A} (c : M E A) : Prop :=
  ∀ st, ext (c st).2 = ext st.

End Adapter.

Arguments model : clear implicits.
Arguments run_state : clear implicits.

(** ** Three sentences of the specification, as worded *)

Section AsWorded.

Context {world : Type} {py : Interpreter} {mem : Memory world}.

(** "For every model whose expected width w is known and is not 5, the
    vector passed to predict is the 5 features followed by w - 5 zeros
    when w > 5, and the first w of the 5 features when w < 5." *)
Definition width_reconciled_as_worded : Prop :=
  ∀ (risk : string) (m : model world) (base : list float)
    (st : run_state world) (w : Z),
    length base = 5%nat →
    detect_expected m = Some w →
    w ≠ 5 →
    calls (score_model risk m base st).2 !! length (calls st)
    = Some (risk, if 5 <? w then base ++ replicate (Z.to_nat (w - 5)) 0%float
                  else take (Z.to_nat w) base).

(** "A value error whose message matches the pattern, matching
    case-insensitively, with N1 above the current length, makes the
    adapter pad to N1 and retry exactly once." *)
Definition retry_on_any_case_match : Prop :=
  ∀ (risk : string) (m : model world) (features : list float)
    (st st1 : run_state world) (e : py_exn) (mt : list text),
    predict_first risk m features st = (inl e, st1) →
    exn_class_of e = ValueError →
    spec_search_ignoring_case SHAPE_RE (exn_str e) = Some mt →
    len features < int_of_digits (group mt 1) →
    calls (obtain_prediction risk m features st).2
    = calls st ++
        [(risk, features);
         (risk, features ++ zeros (int_of_digits (group mt 1) - len features))].

(** "If the retry also fails, or N1 does not exceed the current length,
    or the message does not match, the error carries the original
    message." *)
Definition unresolved_error_carries_original : Prop :=
  ∀ (risk : string) (m : model world) (features : list float)
    (st st1 : run_state world) (e : py_exn),
    predict_first risk m features st = (inl e, st1) →
    exn_class_of e = ValueError →
    ((∃ mt e2 st2,
        re_search SHAPE_RE (exn_str e) = Some mt
        ∧ len features < int_of_digits (group mt 1)
        ∧ predict_first risk m
            (features ++ zeros (int_of_digits (group mt 1) - len features)) st1
          = (inl e2, st2))
     ∨ (∃ mt, re_search SHAPE_RE (exn_str e) = Some mt
              ∧ int_of_digits (group mt 1) ≤ len features)
     ∨ re_search SHAPE_RE (exn_str e) = None) →
    ∃ (err : HTTPException) st',
      obtain_prediction risk m features st = (inl (Raised err), st')
      ∧ contains (exn_str e) (detail err) = true.

End AsWorded.

(** ** Sample interpreter and models *)

Module Samples.

(** The blocks of decimal digits the samples draw on: ASCII,
    Arabic-Indic, Extended Arabic-Indic, Devanagari and Fullwidth; each
    block holds the digits 0 to 9 in order. *)
Definition digit_blocks : list N := [48; 1632; 1776; 2406; 65296]%N.

Definition block_of (c : N) : option N :=
  find (λ start, (start <=? c)%N && (c <? start + 10)%N) digit_blocks.

Definition sample_decimal (c : N) : option Z :=
  start ← block_of c; Some (Z.of_N c - Z.of_N start).

Definition all_digits (s : text) : bool :=
  negb (Nat.eqb (length s) 0) && forallb (λ c, bool_decide (is_Some (sample_decimal c))) s.

Definition sample_int (s : text) : Z :=
  int_of_digits_from (λ c, default 0 (sample_decimal c)) 0 s.

(** A 64-bit CPython with its default digit limit; the two parsers read
    runs of the decimal digits above and reject every other string. *)
Definition cpython : Interpreter := {|
  str_to_float s := if all_digits s then Some (int_to_float (sample_int s)) else None;
  str_to_int s :=
    if all_digits s && (length s <=? 4300)%nat then Some (sample_int s) else None;
  decimal := sample_decimal;
  maxsize := 2 ^ 63 - 1;
  int_max_str_digits := 4300
|}.

(** Memory for lists of up to a million floats, whatever the world. *)
Definition roomy {world} : Memory world := {|
  can_allocate _ n := n <=? 1000000
|}.

(** A model without internal state: [predict] is a function of the one
    vector in the batch. *)
Definition stateless (attributes : list (string * pyobj))
    (f : list float → py_exn + list pyobj) : model unit := {|
  attrs := list_to_map attributes;
  predict batch w :=
    (match batch with
     | [x] => f x
     | _ => inl (PyExn OtherException (codes "expected a batch of one"))
     end, w)
|}.

(** Always predicts [y]. *)
Definition constant (y : pyobj) : model unit := stateless [] (λ _, inr [y]).

(** Predicts [y] on vectors of length [n]; rejects every other length
    with a [ValueError] carrying [msg]. *)
Definition fixed_width (attributes : list (string * pyobj)) (n : nat)
    (msg : text) (y : pyobj) : model unit :=
  stateless attributes
    (λ x, if Nat.eqb (length x) n then inr [y] else inl (PyExn ValueError msg)).

(** Rejects a short vector with a [ValueError] and a vector of length
    [n] with another exception. *)
Definition always_failing (n : nat) (msg msg2 : text) : model unit :=
  stateless []
    (λ x, if Nat.eqb (length x) n then inl (PyExn OtherException msg2)
          else inl (PyExn ValueError msg)).

(** Rejects every vector with the same exception. *)
Definition raising (attributes : list (string * pyobj)) (e : py_exn) : model unit :=
  stateless attributes (λ _, inl e).

(** A model that counts its calls and predicts the count. *)
Definition counting : model Z := {|
  attrs := ∅;
  predict _ n := (inr [PyInt n], n + 1)
|}.

Definition start {world} (w : world) : run_state world :=
  {| ext := w; calls := [] |}.

Definition five {world} (m : model world) : list (string * model world) :=
  map (λ risk, (risk, m)) RISK_NAMES.

Definition profile (a b c d e : Z) : PersonalityInput :=
  {| openness := a; conscientiousness := b; extraversion := c;
     agreeableness := d; neuroticism := e |}.

End Samples.

(** ** The rest of the service: health endpoint, CORS origins *)

(** The body that [root()] returns: lines 51-57. *)
Record Health : Type := {
  status : string;
  models_loaded : Z;
  available_predictions : list string
}.

Section Service.

Context {world : Type}.

(** [root()]: [len(models)] and [list(models.keys())]. *)
Definition root (models : list (string * model world)) : Health :=
  {| status := "healthy";
     models_loaded := len models;
     available_predictions := models.*1 |}.

(** One step of the startup loop went through: the file of the entry is
    there, [joblib.load] returned, and the dictionary holds what it
    returned under the name of the entry. *)
Definition loaded_entry (path_exists : string → bool)
    (joblib_load : string → py_exn + model world)
    (entry : string * string) (item : string * model world) : Prop :=
  path_exists entry.2 = true
  ∧ joblib_load entry.2 = inr item.2
  ∧ item.1 = entry.1.

End Service.

(** [s.split(sep)] for a separator of one character: every occurrence
    splits, empty pieces are kept. *)
Fixpoint split_on (sep : ascii) (s : string) : list string :=
  match s with
  | EmptyString => [EmptyString]
  | String c rest =>
      if Ascii.eqb c sep then EmptyString :: split_on sep rest
      else
        match split_on sep rest with
        | piece :: pieces => String c piece :: pieces
        | [] => [String c EmptyString]
        end
  end.

(** [sep.join(pieces)] *)
Fixpoint join_with (sep : string) (pieces : list string) : string :=
  match pieces with
  | [] => EmptyString
  | [piece] => piece
  | piece :: rest => piece +:+ sep +:+ join_with sep rest
  end.

(** Line 27: [os.getenv("ALLOWED_ORIGINS", "*").split(",")]; [env] is the
    value of the variable, [None] when it is not set. *)
Definition allowed_origins (env : option string) : list string :=
  split_on "," (default "*" env).

(** The number of occurrences of a character. *)
Fixpoint count_char (c : ascii) (s : string) : nat :=
  match s with
  | EmptyString => 0
  | String a rest => (if Ascii.eqb a c then 1 else 0) + count_char c rest
  end.

(** A non-empty run of characters of a class. *)
Definition run_of (cls : N → bool) (s : text) : Prop :=
  s ≠ [] ∧ Forall (λ c, cls c = true) s.

(** A text does not go on with a character of the class. *)
Definition stops (cls : N → bool) (s : text) : Prop :=
  match s with
  | [] => True
  | c :: _ => cls c = false
  end.

(** Whether the integer of a trait converts to a float exactly and
    inside the bounds: the float converts back to it and lies in
    [0.0, 100.0]. *)
Definition trait_exact (z : Z) : bool :=
  match float_trunc (int_to_float z) with
  | Some z' => Z.eqb z' z
  | None => false
  end
  && PrimFloat.leb 0 (int_to_float z) && PrimFloat.leb (int_to_float z) 100.


Section Traces.

Context {world : Type} {py : Interpreter} {mem : Memory world}.

(** The state after a call of [predict] that left the world [w]. *)
Definition called (st : run_state world) (risk : string) (features : list float)
    (w : world) : run_state world :=
  {| ext := w; calls := calls st ++ [(risk, features)] |}.

(** The first call of a model in the run of [score_model] from [st] is
    made with [vector]: the log shows it, and what [predict] does on the
    batch of that one vector decides the outcome: a first prediction that
    coerces to a float is clamped and returned, and an exception that
    only [except Exception] catches is reported as it is. *)
Definition first_call_with (risk : string) (m : model world) (base : list float)
    (st : run_state world) (vector : list float) : Prop :=
  calls (score_model risk m base st).2 !! length (calls st) = Some (risk, vector)
  ∧ (∀ y ys w v,
       predict m [vector] (ext st) = (inr (y :: ys), w) →
       py_float y = Some v →
       score_model risk m base st = (inr (clamp v), called st risk vector w))
  ∧ (∀ e w,
       predict m [vector] (ext st) = (inl e, w) →
       exn_class_of e = OtherException →
       score_model risk m base st
       = (inl (Raised (prediction_error (exn_str e))), called st risk vector w)).


End Traces.

(** * Facts about floats *)

Section FloatFacts.

Lemma Prim2SF_0 : Prim2SF 0%float = S754_zero false.
Proof. reflexivity. Qed.

Lemma Prim2SF_100 : Prim2SF 100%float = S754_finite false 7036874417766400 (-46).
Proof. reflexivity. Qed.

Lemma ltb_0_100 : PrimFloat.ltb 0 100 = true.
Proof. reflexivity. Qed.

Lemma ltb_leb (x y : float) : PrimFloat.ltb x y = true → PrimFloat.leb x y = true.
Proof.
  rewrite ltb_spec, leb_spec. unfold SFltb, SFleb.
  destruct (SFcompare _ _) as [[]|]; congruence.
Qed.

Lemma SF2Prim_inj (x y : float) : Prim2SF x = Prim2SF y → x = y.
Proof.
  intros H. rewrite <- (SF2Prim_Prim2SF x), <- (SF2Prim_Prim2SF y). now rewrite H.
Qed.

(** The clamp by cases on the two comparisons it performs. *)
Lemma clamp_cases (v : float) :
  clamp v =
    if PrimFloat.ltb v 100 then (if PrimFloat.ltb 0 v then v else 0%float)
    else 100%float.
Proof.
  unfold clamp, py_min, py_max.
  destruct (PrimFloat.ltb v 100); [reflexivity|]. now rewrite ltb_0_100.
Qed.

Lemma clamp_between (v : float) : between 0 100 (clamp v).
Proof.
  rewrite clamp_cases. unfold between.
  destruct (PrimFloat.ltb v 100) eqn:E1.
  - destruct (PrimFloat.ltb 0 v) eqn:E2.
    + split; now apply ltb_leb.
    + split; reflexivity.
  - split; reflexivity.
Qed.

(** Move the comparisons of the hypotheses to the specification level. *)
Ltac to_spec :=
  repeat match goal with
  | H : context [PrimFloat.ltb _ _] |- _ => rewrite ltb_spec in H
  | H : context [PrimFloat.leb _ _] |- _ => rewrite leb_spec in H
  | H : context [Prim2SF 0%float] |- _ => rewrite Prim2SF_0 in H
  | H : context [Prim2SF 100%float] |- _ => rewrite Prim2SF_100 in H
  end.

(** Evaluate the specification-level comparisons, and nothing else. *)
Ltac sf_eval :=
  cbv beta iota delta [SFcompare SFltb SFleb SFeqb] in *.

Lemma clamp_below (v : float) : PrimFloat.ltb v 0 = true → clamp v = 0%float.
Proof.
  intros H. rewrite clamp_cases.
  destruct (PrimFloat.ltb v 100) eqn:E1; destruct (PrimFloat.ltb 0 v) eqn:E2;
    try reflexivity; exfalso; to_spec;
    destruct (Prim2SF v) as [[]|[]| |[] m e]; sf_eval; discriminate.
Qed.

Lemma clamp_above (v : float) : PrimFloat.ltb 100 v = true → clamp v = 100%float.
Proof.
  intros H. rewrite clamp_cases.
  destruct (PrimFloat.ltb v 100) eqn:E1; [|reflexivity].
  exfalso. to_spec.
  destruct (Prim2SF v) as [[]|[]| |[] m e]; sf_eval; try discriminate.
  rewrite (Z.compare_antisym e (-46)) in H.
  destruct (e ?= -46); cbv beta iota delta [CompOpp] in H; try discriminate.
  assert (Hm : Pos.compare_cont Eq 7036874417766400 m
               = CompOpp (Pos.compare_cont Eq m 7036874417766400))
    by (symmetry; apply (Pos.compare_cont_antisym m _ Eq)).
  rewrite Hm in H.
  destruct (Pos.compare_cont Eq m 7036874417766400);
    cbv beta iota delta [CompOpp] in H; discriminate.
Qed.

(** Not above zero and not below it: a zero of either sign. *)
Lemma float_is_zero (v : float) :
  PrimFloat.leb 0 v = true → PrimFloat.ltb 0 v = false →
  ∃ s, Prim2SF v = S754_zero s.
Proof.
  intros H0 E2. to_spec.
  destruct (Prim2SF v) as [s|[]| |[] m e]; sf_eval; try discriminate.
  eauto.
Qed.

(** Not above 100 and not below it: 100 itself. *)
Lemma float_is_100 (v : float) :
  PrimFloat.leb v 100 = true → PrimFloat.ltb v 100 = false → v = 100%float.
Proof.
  intros H1 E1. apply SF2Prim_inj. rewrite Prim2SF_100. to_spec.
  destruct (Prim2SF v) as [[]|[]| |[] m e]; sf_eval; try discriminate.
  destruct (e ?= -46) eqn:Ee; try discriminate.
  destruct (Pos.compare_cont Eq m 7036874417766400) eqn:Em; try discriminate.
  apply Z.compare_eq in Ee. apply (Pos.compare_eq m) in Em. now subst.
Qed.

Lemma eqb_refl_ordered (v : float) :
  PrimFloat.ltb 0 v = true → PrimFloat.eqb v v = true.
Proof.
  intros E2. rewrite FloatAxioms.eqb_spec. to_spec.
  destruct (Prim2SF v) as [[]|[]| |[] m e]; sf_eval; try discriminate;
    try reflexivity.
  now rewrite Z.compare_refl, Pos.compare_cont_refl.
Qed.

(** A value inside the interval is kept: it compares equal to its clamp,
    and is the very same float unless it is the negative zero (which
    [max(0.0, -0.0)] turns into [0.0]). *)
Lemma clamp_inside (v : float) :
  between 0 100 v →
  PrimFloat.eqb (clamp v) v = true ∧ (v ≠ (-0)%float → clamp v = v).
Proof.
  intros [H0 H1]. rewrite clamp_cases.
  destruct (PrimFloat.ltb v 100) eqn:E1; [destruct (PrimFloat.ltb 0 v) eqn:E2|].
  - split; [now apply eqb_refl_ordered|reflexivity].
  - destruct (float_is_zero v H0 E2) as [s Hz]. split.
    + rewrite FloatAxioms.eqb_spec, Prim2SF_0, Hz. reflexivity.
    + intros Hn. apply SF2Prim_inj. rewrite Hz, Prim2SF_0.
      destruct s; [|reflexivity]. destruct Hn. apply SF2Prim_inj. now rewrite Hz.
  - rewrite (float_is_100 v H1 E1). split; reflexivity.
Qed.

End FloatFacts.

(** * Facts about the pattern *)

Section PatternFacts.

Context {py : Interpreter}.

Implicit Types (s t msg : text).

Lemma match_lit_app s t : match_lit s (s ++ t) = Some t.
Proof.
  induction s as [|c s IH]; [reflexivity|].
  cbn [match_lit app]. now rewrite N.eqb_refl.
Qed.

Lemma contains_unfold (needle hay : text) :
  contains needle hay =
    match match_lit needle hay with
    | Some _ => true
    | None =>
        match hay with
        | [] => false
        | _ :: rest => contains needle rest
        end
    end.
Proof. destruct hay; reflexivity. Qed.

(** A text occurs in whatever is put in front of and behind it. *)
Lemma contains_append (before s after : text) :
  contains s (before ++ s ++ after) = true.
Proof.
  induction before as [|c before IH].
  - rewrite contains_unfold. cbn [app]. now rewrite match_lit_app.
  - rewrite contains_unfold. cbn [app].
    destruct (match_lit s _); [reflexivity|exact IH].
Qed.

Lemma contains_suffix (before s : text) : contains s (before ++ s) = true.
Proof.
  pose proof (contains_append before s []) as Hc.
  now rewrite app_nil_r in Hc.
Qed.

(** The search is case-sensitive: it succeeds only on a text that holds
    the lower-case word "expected". *)
Lemma search_needs_expected msg (mt : list text) :
  re_search SHAPE_RE msg = Some mt → contains (codes "expected") msg = true.
Proof.
  change SHAPE_RE with
    (ReSeq (ReLit (codes "expected"))
       (re_concat
          [ RePlus (one_of (codes ": ")); ReGroup (RePlus is_digit);
            RePlus (one_of (codes ", "));
            ReLit (codes "got"); RePlus (one_of (codes ": "));
            ReGroup (RePlus is_digit) ])).
  induction msg as [|c msg IH]; rewrite contains_unfold; cbn [re_search re_match].
  - discriminate.
  - destruct (match_lit (codes "expected") (c :: msg)); [reflexivity|exact IH].
Qed.

End PatternFacts.

(** * The adapter, model by model *)

Section AdapterFacts.

Context {world : Type} {py : Interpreter} {mem : Memory world}.

Implicit Types (m : model world) (st : run_state world).
Implicit Types (risk : string) (msg : text) (features base : list float).

(** ** Calling the model *)

Lemma predict_first_calls risk m features st :
  calls (predict_first risk m features st).2 = calls st ++ [(risk, features)].
Proof.
  unfold predict_first. destruct (predict m [features] (ext st)) as [[e|batch] w];
    reflexivity.
Qed.

Lemma predict_first_ext risk m features st :
  ext (predict_first risk m features st).2 = (predict m [features] (ext st)).2.
Proof.
  unfold predict_first. destruct (predict m [features] (ext st)) as [[e|batch] w];
    reflexivity.
Qed.

Lemma predict_first_raise risk m features st e w :
  predict m [features] (ext st) = (inl e, w) →
  predict_first risk m features st = (inl e, called st risk features w).
Proof. intros E. unfold predict_first. now rewrite E. Qed.

Lemma predict_first_return risk m features st y ys w :
  predict m [features] (ext st) = (inr (y :: ys), w) →
  predict_first risk m features st = (inr y, called st risk features w).
Proof. intros E. unfold predict_first. now rewrite E. Qed.

(** ** Building the padding *)

Lemma py_zeros_fits n st :
  padding_fits (ext st) n = true → py_zeros n st = (inr (zeros n), st).
Proof. intros E. unfold py_zeros. now rewrite E. Qed.

Lemma py_zeros_fails n st :
  padding_fits (ext st) n = false →
  py_zeros n st = (inl (Escaped (padding_exception n)), st).
Proof. intros E. unfold py_zeros. now rewrite E. Qed.

Lemma py_zeros_state n st : (py_zeros n st).2 = st.
Proof. unfold py_zeros. now destruct (padding_fits _ _). Qed.

(** ** Reshaping *)

Lemma reshape_state expected features st : (reshape expected features st).2 = st.
Proof.
  unfold reshape. destruct expected as [w|]; [|reflexivity].
  destruct (negb _); [|reflexivity]. destruct (_ >? _); [|reflexivity].
  unfold bind, py_zeros. now destruct (padding_fits _ _).
Qed.

Lemma reshape_unknown features st : reshape None features st = (inr features, st).
Proof. reflexivity. Qed.

Lemma reshape_same features w st :
  w = len features → reshape (Some w) features st = (inr features, st).
Proof. intros ->. unfold reshape. now rewrite Z.eqb_refl. Qed.

Lemma reshape_slice features w st :
  w < len features → reshape (Some w) features st = (inr (py_slice_to features w), st).
Proof.
  intros Hw. unfold reshape.
  destruct (Z.eqb_spec w (len features)); [lia|]. cbn [negb].
  destruct (Z.gtb_spec w (len features)); [lia|]. reflexivity.
Qed.

Lemma reshape_pad_fits features w st :
  len features < w →
  padding_fits (ext st) (w - len features) = true →
  reshape (Some w) features st = (inr (features ++ zeros (w - len features)), st).
Proof.
  intros Hw F. unfold reshape.
  destruct (Z.eqb_spec w (len features)); [lia|]. cbn [negb].
  destruct (Z.gtb_spec w (len features)); [|lia].
  unfold bind. now rewrite (py_zeros_fits _ _ F).
Qed.

Lemma reshape_pad_fails features w st :
  len features < w →
  padding_fits (ext st) (w - len features) = false →
  reshape (Some w) features st
  = (inl (Escaped (padding_exception (w - len features))), st).
Proof.
  intros Hw F. unfold reshape.
  destruct (Z.eqb_spec w (len features)); [lia|]. cbn [negb].
  destruct (Z.gtb_spec w (len features)); [|lia].
  unfold bind. now rewrite (py_zeros_fails _ _ F).
Qed.

(** Reshaping fails only for a padding that cannot be built. *)
Lemma reshape_raises expected features st err st' :
  reshape expected features st = (inl err, st') →
  st' = st
  ∧ ∃ w, expected = Some w ∧ len features < w
      ∧ padding_fits (ext st) (w - len features) = false
      ∧ err = Escaped (padding_exception (w - len features)).
Proof.
  intros E. pose proof (reshape_state expected features st) as Hs.
  rewrite E in Hs. cbn [snd] in Hs. subst st'. split; [reflexivity|].
  destruct expected as [w|]; [|discriminate].
  destruct (Z.lt_trichotomy w (len features)) as [H|[H|H]].
  - now rewrite reshape_slice in E.
  - now rewrite reshape_same in E.
  - destruct (padding_fits (ext st) (w - len features)) eqn:F.
    + now rewrite reshape_pad_fits in E.
    + rewrite reshape_pad_fails in E by assumption.
      injection E as <-. eauto 6.
Qed.

Lemma reshape_returns expected features st v st' :
  reshape expected features st = (inr v, st') → st' = st.
Proof.
  intros E. pose proof (reshape_state expected features st) as Hs.
  now rewrite E in Hs.
Qed.

(** A slice of a five-element vector. *)
Lemma slice_width base w :
  length base = 5%nat → 0 ≤ w < 5 → py_slice_to base w = take (Z.to_nat w) base.
Proof.
  intros L Hw. unfold py_slice_to. destruct (Z.ltb_spec w 0); [lia|reflexivity].
Qed.

Lemma slice_negative base w :
  w < 0 → py_slice_to base w = take (length base - Z.to_nat (- w)) base.
Proof.
  intros Hw. unfold py_slice_to. destruct (Z.ltb_spec w 0); [reflexivity|lia].
Qed.

(** ** The paths through the prediction attempt *)

Lemma obtain_returned risk m features st pred st1 :
  predict_first risk m features st = (inr pred, st1) →
  obtain_prediction risk m features st = (inr pred, st1).
Proof. intros E. unfold obtain_prediction, try_except. now rewrite E. Qed.

Lemma obtain_other_exception risk m features st e st1 :
  predict_first risk m features st = (inl e, st1) →
  exn_class_of e = OtherException →
  obtain_prediction risk m features st
  = (inl (Raised (prediction_error (exn_str e))), st1).
Proof.
  intros E C. unfold obtain_prediction, try_except. rewrite E, C. reflexivity.
Qed.

Lemma obtain_no_exception risk m features st e st1 :
  predict_first risk m features st = (inl e, st1) →
  exn_class_of e = NoException →
  obtain_prediction risk m features st = (inl (Escaped (FromModel e)), st1).
Proof.
  intros E C. unfold obtain_prediction, try_except. rewrite E, C. reflexivity.
Qed.

Lemma obtain_value_error risk m features st e st1 :
  predict_first risk m features st = (inl e, st1) →
  exn_class_of e = ValueError →
  obtain_prediction risk m features st = on_value_error risk m features e st1.
Proof.
  intros E C. unfold obtain_prediction, try_except. rewrite E, C. reflexivity.
Qed.

Lemma on_value_error_no_match risk m features e st1 :
  re_search SHAPE_RE (exn_str e) = None →
  on_value_error risk m features e st1
  = (inl (Raised (prediction_error (exn_str e))), st1).
Proof. intros E. unfold on_value_error. rewrite E. reflexivity. Qed.

Lemma on_value_error_too_long risk m features e st1 mt :
  re_search SHAPE_RE (exn_str e) = Some mt →
  py_int_digits (group mt 1) = None →
  on_value_error risk m features e st1 = (inl (Escaped IntValueError), st1).
Proof. intros E I. unfold on_value_error. rewrite E, I. reflexivity. Qed.

Lemma on_value_error_not_wider risk m features e st1 mt n1 :
  re_search SHAPE_RE (exn_str e) = Some mt →
  py_int_digits (group mt 1) = Some n1 →
  n1 ≤ len features →
  on_value_error risk m features e st1
  = (inl (Raised (prediction_error (exn_str e))), st1).
Proof.
  intros E I Hle. unfold on_value_error. rewrite E, I.
  destruct (Z.gtb_spec n1 (len features)); [lia|reflexivity].
Qed.

Lemma on_value_error_retry risk m features e st1 mt n1 :
  re_search SHAPE_RE (exn_str e) = Some mt →
  py_int_digits (group mt 1) = Some n1 →
  len features < n1 →
  padding_fits (ext st1) (n1 - len features) = true →
  on_value_error risk m features e st1
  = retry_padded risk m (features ++ zeros (n1 - len features)) st1.
Proof.
  intros E I Hlt F. unfold on_value_error. rewrite E, I.
  destruct (Z.gtb_spec n1 (len features)); [|lia].
  unfold bind. now rewrite (py_zeros_fits _ _ F).
Qed.

Lemma on_value_error_no_padding risk m features e st1 mt n1 :
  re_search SHAPE_RE (exn_str e) = Some mt →
  py_int_digits (group mt 1) = Some n1 →
  len features < n1 →
  padding_fits (ext st1) (n1 - len features) = false →
  on_value_error risk m features e st1
  = (inl (Escaped (padding_exception (n1 - len features))), st1).
Proof.
  intros E I Hlt F. unfold on_value_error. rewrite E, I.
  destruct (Z.gtb_spec n1 (len features)); [|lia].
  unfold bind. now rewrite (py_zeros_fails _ _ F).
Qed.

Lemma retry_padded_calls risk m features st :
  calls (retry_padded risk m features st).2 = calls st ++ [(risk, features)].
Proof.
  unfold retry_padded, try_except.
  pose proof (predict_first_calls risk m features st) as Hc.
  destruct (predict_first risk m features st) as [[e2|p2] st2]; cbn [snd] in *;
    [destruct (exn_class_of e2)|]; exact Hc.
Qed.

Lemma retry_padded_returned risk m features st pred st1 :
  predict_first risk m features st = (inr pred, st1) →
  retry_padded risk m features st = (inr pred, st1).
Proof. intros E. unfold retry_padded, try_except. now rewrite E. Qed.

Lemma retry_padded_raised risk m features st e2 st1 :
  predict_first risk m features st = (inl e2, st1) →
  exn_class_of e2 ≠ NoException →
  retry_padded risk m features st = (inl (Raised (padding_error (exn_str e2))), st1).
Proof.
  intros E C. unfold retry_padded, try_except. rewrite E.
  destruct (exn_class_of e2); [reflexivity|reflexivity|congruence].
Qed.

(** The score of a model once its prediction is in hand. *)
Lemma score_model_finish risk m base st features pred st1 :
  reshape (detect_expected m) base st = (inr features, st) →
  obtain_prediction risk m features st = (inr pred, st1) →
  score_model risk m base st = to_score risk pred st1.
Proof. intros R E. unfold score_model, bind. now rewrite R, E. Qed.

Lemma score_model_abort risk m base st features err st1 :
  reshape (detect_expected m) base st = (inr features, st) →
  obtain_prediction risk m features st = (inl err, st1) →
  score_model risk m base st = (inl err, st1).
Proof. intros R E. unfold score_model, bind. now rewrite R, E. Qed.

Lemma score_model_no_padding risk m base st err st1 :
  reshape (detect_expected m) base st = (inl err, st1) →
  score_model risk m base st = (inl err, st1).
Proof. intros R. unfold score_model, bind. now rewrite R. Qed.

(** The outcome of reshaping, with the state it leaves made explicit. *)
Lemma reshape_cases expected features st :
  (∃ v, reshape expected features st = (inr v, st))
  ∨ (∃ err, reshape expected features st = (inl err, st)).
Proof.
  pose proof (reshape_state expected features st) as Hs.
  destruct (reshape expected features st) as [[err|v] st']; cbn [snd] in Hs; subst st';
    eauto.
Qed.

(** Every error of the prediction attempt: one of the two "Prediction
    error" responses, or an exception that leaves the handler as it
    is. *)
Lemma obtain_error_shape risk m features st err st1 :
  obtain_prediction risk m features st = (inl err, st1) →
  (∃ msg, err = Raised (prediction_error msg) ∨ err = Raised (padding_error msg))
  ∨ (∃ n, 0 < n ∧ padding_fits (ext st1) n = false
          ∧ err = Escaped (padding_exception n))
  ∨ err = Escaped IntValueError
  ∨ (∃ e, exn_class_of e = NoException ∧ err = Escaped (FromModel e)).
Proof.
  unfold obtain_prediction, try_except.
  destruct (predict_first risk m features st) as [[e|pred] st0]; [|discriminate].
  destruct (exn_class_of e) eqn:C.
  - unfold on_value_error. destruct (re_search SHAPE_RE (exn_str e)) as [mt|].
    + destruct (py_int_digits _) as [n1|].
      * destruct (Z.gtb_spec n1 (len features)).
        -- unfold bind, py_zeros. destruct (padding_fits _ _) eqn:F.
           ++ unfold retry_padded, try_except, raise.
              destruct (predict_first _ _ _ _) as [[e2|pred2] st2]; [|discriminate].
              destruct (exn_class_of e2) eqn:C2; intros [= <- <-]; eauto 8.
           ++ intros [= <- <-]. right. left. eexists. split; [|eauto]. lia.
        -- unfold raise. intros [= <- <-]. eauto.
      * unfold raise. intros [= <- <-]. eauto.
    + unfold raise. intros [= <- <-]. eauto.
  - unfold raise. intros [= <- <-]. eauto.
  - unfold raise. intros [= <- <-]. eauto 8.
Qed.


(** ** The calls a model receives *)

(** Scoring changes the state only through the prediction attempt. *)
Lemma score_model_state risk m base st features :
  reshape (detect_expected m) base st = (inr features, st) →
  (score_model risk m base st).2 = (obtain_prediction risk m features st).2.
Proof.
  intros R. unfold score_model, bind. rewrite R.
  destruct (obtain_prediction _ _ _ _) as [[err|pred] st1]; [reflexivity|].
  unfold to_score. destruct (py_float pred); reflexivity.
Qed.

(** The prediction attempt calls the model once, or twice when a
    [ValueError] names a width above the length of the vector that
    [int()] reads and the padding to it is built. *)
Lemma obtain_calls risk m features st :
  calls (obtain_prediction risk m features st).2 = calls st ++ [(risk, features)]
  ∨ ∃ e w1 mt n1,
      predict m [features] (ext st) = (inl e, w1)
      ∧ exn_class_of e = ValueError
      ∧ re_search SHAPE_RE (exn_str e) = Some mt
      ∧ py_int_digits (group mt 1) = Some n1
      ∧ len features < n1
      ∧ padding_fits w1 (n1 - len features) = true
      ∧ calls (obtain_prediction risk m features st).2
        = calls st ++
            [(risk, features); (risk, features ++ zeros (n1 - len features))].
Proof.
  pose proof (predict_first_calls risk m features st) as Hc.
  destruct (predict_first risk m features st) as [[e|pred] st1] eqn:E; cbn [snd] in Hc.
  - destruct (exn_class_of e) eqn:C.
    + rewrite (obtain_value_error _ _ _ _ _ _ E C).
      destruct (re_search SHAPE_RE (exn_str e)) as [mt|] eqn:R.
      * destruct (py_int_digits (group mt 1)) as [n1|] eqn:I.
        -- destruct (Z.le_gt_cases n1 (len features)) as [Hle|Hlt].
           ++ left. now rewrite (on_value_error_not_wider _ _ _ _ _ _ _ R I Hle).
           ++ destruct (padding_fits (ext st1) (n1 - len features)) eqn:F.
              ** right. unfold predict_first in E.
                 destruct (predict m [features] (ext st)) as [[e'|batch] w1] eqn:P.
                 --- injection E as -> <-. exists e, w1, mt, n1.
                     repeat split; try assumption.
                     rewrite (on_value_error_retry _ _ _ _ _ _ _ R I Hlt F).
                     rewrite retry_padded_calls. cbn [calls]. now rewrite <- app_assoc.
                 --- destruct batch; [|discriminate]. injection E as <- <-.
                     discriminate C.
              ** left. now rewrite (on_value_error_no_padding _ _ _ _ _ _ _ R I Hlt F).
        -- left. now rewrite (on_value_error_too_long _ _ _ _ _ _ R I).
      * left. now rewrite (on_value_error_no_match _ _ _ _ _ R).
    + left. now rewrite (obtain_other_exception _ _ _ _ _ _ E C).
    + left. now rewrite (obtain_no_exception _ _ _ _ _ _ E C).
  - left. now rewrite (obtain_returned _ _ _ _ _ _ E).
Qed.

(** The first call of a model receives the reshaped vector. *)
Lemma score_model_first_call risk m base st features :
  reshape (detect_expected m) base st = (inr features, st) →
  calls (score_model risk m base st).2 !! length (calls st) = Some (risk, features).
Proof.
  intros R. rewrite (score_model_state _ _ _ _ _ R).
  destruct (obtain_calls risk m features st)
    as [-> | (e & w1 & mt & n1 & _ & _ & _ & _ & _ & _ & ->)];
    now rewrite lookup_app_r, Nat.sub_diag by lia.
Qed.

(** What the model does on the reshaped vector decides the outcome. *)
Lemma score_model_first_call_with risk m base st features :
  reshape (detect_expected m) base st = (inr features, st) →
  first_call_with risk m base st features.
Proof.
  intros R. split; [|split].
  - now apply score_model_first_call.
  - intros y ys w v P Hv.
    rewrite (score_model_finish _ _ _ _ _ _ _ R
               (obtain_returned _ _ _ _ _ _ (predict_first_return _ _ _ _ _ _ _ P))).
    unfold to_score. now rewrite Hv.
  - intros e w P C.
    apply (score_model_abort _ _ _ _ _ _ _ R).
    now apply obtain_other_exception; [apply predict_first_raise|].
Qed.

End AdapterFacts.

(** * Properties of the adapter for one model *)

Section ModelProperties.

Context {world : Type} {py : Interpreter} {mem : Memory world}.

Implicit Types (m : model world) (st : run_state world).
Implicit Types (risk : string) (msg : text) (features base : list float).

(** C6.  Whenever the prediction of a model coerces to a float [v], the
    score recorded under the model's risk name is [v] clamped to
    [0, 100]: a value below 0 is recorded as 0.0, a value above 100 as
    100.0, and a value inside the interval is recorded as it is (equal as
    a float, and the identical float except that the negative zero is
    recorded as 0.0). *)
Theorem C6_recorded_score_is_clamped risk m base st features pred st1 v rest results :
  reshape (detect_expected m) base st = (inr features, st) →
  obtain_prediction risk m features st = (inr pred, st1) →
  py_float pred = Some v →
  score_model risk m base st = (inr (clamp v), st1)
  ∧ predict_loop ((risk, m) :: rest) base results st
    = predict_loop rest base (<[risk := clamp v]> results) st1
  ∧ (PrimFloat.ltb v 0 = true → clamp v = 0%float)
  ∧ (PrimFloat.ltb 100 v = true → clamp v = 100%float)
  ∧ (between 0 100 v →
     PrimFloat.eqb (clamp v) v = true ∧ (v ≠ (-0)%float → clamp v = v)).
Proof.
  intros R E Hv.
  assert (Hs : score_model risk m base st = (inr (clamp v), st1)).
  { rewrite (score_model_finish _ _ _ _ _ _ _ R E). unfold to_score. now rewrite Hv. }
  repeat split.
  - exact Hs.
  - cbn [predict_loop]. unfold bind at 1. now rewrite Hs.
  - apply clamp_below.
  - apply clamp_above.
  - now apply clamp_inside.
  - now apply clamp_inside.
Qed.


(** C2, amended.  When introspection finds an expected width [w], the
    first call of [predict] is made with: the five features followed by
    [w - 5] zeros when [w > 5] and the interpreter builds that list of
    zeros; the first [w] features when [0 <= w < 5]; the five features
    without their last [-w] (none of them from [w = -5] down) when
    [w < 0], as the slice [features[:w]] has it; the five features
    unchanged when [w = 5].  When [w > 5] and the list of zeros is not
    built, the model is not called and the exception of the list
    repetition leaves the handler. *)
Theorem C2_width_reconciliation risk m base st w :
  length base = 5%nat →
  detect_expected m = Some w →
  (5 < w → padding_fits (ext st) (w - 5) = true →
   first_call_with risk m base st (base ++ replicate (Z.to_nat (w - 5)) 0%float))
  ∧ (5 < w → padding_fits (ext st) (w - 5) = false →
     score_model risk m base st = (inl (Escaped (padding_exception (w - 5))), st))
  ∧ (0 ≤ w < 5 → first_call_with risk m base st (take (Z.to_nat w) base))
  ∧ (w < 0 → first_call_with risk m base st (take (5 - Z.to_nat (- w)) base))
  ∧ (w = 5 → first_call_with risk m base st base).
Proof.
  intros L E.
  assert (L5 : len base = 5) by (unfold len; now rewrite L).
  split; [|split; [|split; [|split]]].
  - intros Hw F. apply score_model_first_call_with.
    rewrite E, reshape_pad_fits; rewrite L5; try assumption. reflexivity.
  - intros Hw F. apply score_model_no_padding.
    rewrite E, reshape_pad_fails; rewrite L5; try assumption. reflexivity.
  - intros Hw. apply score_model_first_call_with.
    rewrite E, reshape_slice by lia. now rewrite slice_width.
  - intros Hw. apply score_model_first_call_with.
    rewrite E, reshape_slice by lia. now rewrite slice_negative, L.
  - intros ->. apply score_model_first_call_with.
    rewrite E. now apply reshape_same.
Qed.

(** C5.  The expected width is read from [n_features_in_] when the model
    has that attribute, otherwise from [n_features_] when it has that
    one; the value found is coerced with [int], and a failed coercion
    leaves the width unknown without a look at the other attribute.  With
    neither attribute the width is unknown.  With an unknown width the
    first call of [predict] receives the base vector unchanged: the log
    shows it, and what [predict] does on that vector decides the
    outcome. *)
Theorem C5_width_introspection risk m base st :
  (∀ v, attrs m !! "n_features_in_" = Some v → detect_expected m = py_int v)
  ∧ (attrs m !! "n_features_in_" = None →
     ∀ v, attrs m !! "n_features_" = Some v → detect_expected m = py_int v)
  ∧ (attrs m !! "n_features_in_" = None → attrs m !! "n_features_" = None →
     detect_expected m = None)
  ∧ (detect_expected m = None →
     calls (score_model risk m base st).2 !! length (calls st) = Some (risk, base)
     ∧ first_call_with risk m base st base).
Proof.
  split; [|split; [|split]].
  - unfold detect_expected, hasattr, getattr.
    intros v ->. rewrite bool_decide_eq_true_2 by eauto. reflexivity.
  - unfold detect_expected, hasattr, getattr.
    intros -> v ->. rewrite bool_decide_eq_false_2 by (intros [? [=]]).
    rewrite bool_decide_eq_true_2 by eauto. reflexivity.
  - unfold detect_expected, hasattr, getattr.
    intros -> ->. rewrite !bool_decide_eq_false_2 by (intros [? [=]]). reflexivity.
  - intros E.
    assert (R : reshape (detect_expected m) base st = (inr base, st))
      by now rewrite E.
    split; [now apply score_model_first_call|now apply score_model_first_call_with].
Qed.


(** C3, amended.  When the first call raises a [ValueError] whose
    message matches the pattern as the handler searches it, that is
    case-sensitively (the message holds the lower-case word "expected"),
    [int()] reads the width [N1] from the first group, [N1] is above the
    length of the vector and the interpreter builds the list of the
    missing zeros, the handler pads the vector with zeros to length [N1]
    and calls the model exactly once more; when that call returns a
    prediction that coerces to a float, the clamped value is the score
    of the model. *)
Theorem C3_padding_retry risk m base st features e w1 mt n1 :
  reshape (detect_expected m) base st = (inr features, st) →
  predict m [features] (ext st) = (inl e, w1) →
  exn_class_of e = ValueError →
  re_search SHAPE_RE (exn_str e) = Some mt →
  py_int_digits (group mt 1) = Some n1 →
  len features < n1 →
  padding_fits w1 (n1 - len features) = true →
  let padded := features ++ replicate (Z.to_nat (n1 - len features)) 0%float in
  contains (codes "expected") (exn_str e) = true
  ∧ n1 = int_of_digits (group mt 1)
  ∧ len padded = n1
  ∧ calls (score_model risk m base st).2
    = calls st ++ [(risk, features); (risk, padded)]
  ∧ ∀ y ys w2 v,
      predict m [padded] w1 = (inr (y :: ys), w2) →
      py_float y = Some v →
      score_model risk m base st
      = (inr (clamp v), called (called st risk features w1) risk padded w2).
Proof.
  intros Rs P C R I Hn F padded.
  pose proof (predict_first_raise risk _ _ _ _ _ P) as P1.
  pose proof (obtain_value_error _ _ _ _ _ _ P1 C) as O.
  rewrite (on_value_error_retry risk m _ _ (called st risk features w1) _ _ R I Hn F) in O.
  change (features ++ zeros (n1 - len features)) with padded in O.
  split; [|split; [|split; [|split]]].
  - eapply search_needs_expected, R.
  - unfold py_int_digits in I. destruct (_ && _); congruence.
  - unfold padded, len in *. rewrite length_app, length_replicate. lia.
  - rewrite (score_model_state _ _ _ _ _ Rs), O, retry_padded_calls.
    cbn [called calls]. now rewrite <- app_assoc.
  - intros y ys w2 v P2 Hv.
    rewrite (retry_padded_returned _ _ _ _ _ _
               (predict_first_return risk _ _ (called st risk features w1) _ _ _ P2)) in O.
    rewrite (score_model_finish _ _ _ _ _ _ _ Rs O). unfold to_score.
    now rewrite Hv.
Qed.

(** C4, amended.  After a [ValueError] from the first call: when the
    message does not match the pattern, or the width that [int()] reads
    from it is not above the length of the vector, the request fails with
    status 500 and detail "Prediction error: " followed by the message of
    that error; when the padding is built and the retry with the padded
    vector raises an exception that [except Exception] catches, the
    request fails with status 500 and detail "Prediction error after
    padding: " followed by the message of the error raised by the
    retry. *)
Theorem C4_unresolved_value_error risk m base st features e w1 :
  reshape (detect_expected m) base st = (inr features, st) →
  predict m [features] (ext st) = (inl e, w1) →
  exn_class_of e = ValueError →
  let st1 := called st risk features w1 in
  let original := mkHTTPException 500 (codes "Prediction error: " ++ exn_str e) in
  contains (exn_str e) (detail original) = true
  ∧ (re_search SHAPE_RE (exn_str e) = None →
     score_model risk m base st = (inl (Raised original), st1))
  ∧ (∀ mt n1, re_search SHAPE_RE (exn_str e) = Some mt →
              py_int_digits (group mt 1) = Some n1 →
              n1 ≤ len features →
              score_model risk m base st = (inl (Raised original), st1))
  ∧ (∀ mt n1 e2 w2,
       re_search SHAPE_RE (exn_str e) = Some mt →
       py_int_digits (group mt 1) = Some n1 →
       len features < n1 →
       padding_fits w1 (n1 - len features) = true →
       let padded := features ++ replicate (Z.to_nat (n1 - len features)) 0%float in
       predict m [padded] w1 = (inl e2, w2) →
       exn_class_of e2 ≠ NoException →
       score_model risk m base st
       = (inl (Raised (mkHTTPException 500
                         (codes "Prediction error after padding: " ++ exn_str e2))),
          called st1 risk padded w2)).
Proof.
  intros Rs P C st1 original.
  pose proof (predict_first_raise risk _ _ _ _ _ P) as P1.
  pose proof (obtain_value_error _ _ _ _ _ _ P1 C) as O.
  split; [|split; [|split]].
  - apply contains_suffix.
  - intros R. apply (score_model_abort _ _ _ _ _ _ _ Rs). rewrite O.
    now apply on_value_error_no_match.
  - intros mt n1 R I Hle. apply (score_model_abort _ _ _ _ _ _ _ Rs). rewrite O.
    now apply on_value_error_not_wider with mt n1.
  - intros mt n1 e2 w2 R I Hlt F padded P2 C2.
    apply (score_model_abort _ _ _ _ _ _ _ Rs). rewrite O.
    rewrite (on_value_error_retry risk m _ _ (called st risk features w1) _ _ R I Hlt F).
    apply retry_padded_raised; [|assumption].
    now apply predict_first_raise.
Qed.

End ModelProperties.

(** * The adapter, request by request *)

Section RequestFacts.

Context {world : Type} {py : Interpreter} {mem : Memory world}.

Implicit Types (m : model world) (st : run_state world).
Implicit Types (risk : string) (base : list float) (results : gmap string float).
Implicit Types (items models : list (string * model world)).

Lemma score_model_between risk m base st v st1 :
  score_model risk m base st = (inr v, st1) → between 0 100 v.
Proof.
  unfold score_model, bind.
  destruct (reshape _ _ _) as [[err|features] st0]; [discriminate|].
  destruct (obtain_prediction _ _ _ _) as [[err|pred] st2]; [discriminate|].
  unfold to_score. destruct (py_float pred); [|discriminate].
  intros [= <- <-]. apply clamp_between.
Qed.

Lemma predict_loop_cons risk m items base results st :
  predict_loop ((risk, m) :: items) base results st =
    match score_model risk m base st with
    | (inr val, st1) => predict_loop items base (<[risk := val]> results) st1
    | (inl err, st1) => (inl err, st1)
    end.
Proof. reflexivity. Qed.

(** When no model fails the loop returns a dictionary holding the old
    entries and one clamped score per model. *)
Lemma predict_loop_ok items : ∀ base results st,
  every_model_scores items base st →
  ∃ results' st',
    predict_loop items base results st = (inr results', st')
    ∧ dom results' = dom results ∪ (list_to_set items.*1 : gset string)
    ∧ ∀ k v, results' !! k = Some v → results !! k = Some v ∨ between 0 100 v.
Proof.
  induction items as [|[risk m] items IH]; intros base results st Hall.
  - exists results, st. split; [reflexivity|]. split; [set_solver|auto].
  - cbn [every_model_scores] in Hall. rewrite predict_loop_cons.
    destruct (score_model risk m base st) as [[err|val] st1] eqn:E; [contradiction|].
    destruct (IH base (<[risk := val]> results) st1 Hall) as (r' & st' & -> & Hd & Hv).
    exists r', st'. split; [reflexivity|]. split.
    + rewrite Hd, dom_insert_L. cbn [fmap list_fmap fst list_to_set]. set_solver.
    + intros k v Hk. destruct (Hv k v Hk) as [Hi|Hb]; [|now right].
      rewrite lookup_insert in Hi. case_decide.
      * injection Hi as <-. right. eapply score_model_between, E.
      * now left.
Qed.

(** A loop that returns has scored every model. *)
Lemma predict_loop_returns items : ∀ base results st results' st',
  predict_loop items base results st = (inr results', st') →
  every_model_scores items base st.
Proof.
  induction items as [|[risk m] items IH]; intros base results st results' st' E.
  - exact I.
  - rewrite predict_loop_cons in E. cbn [every_model_scores].
    destruct (score_model risk m base st) as [[err|val] st1]; [discriminate|].
    eapply IH, E.
Qed.

(** The loop over a list split in two: the second part starts where the
    first part stopped. *)
Lemma predict_loop_app done items : ∀ base results st,
  predict_loop (done ++ items) base results st =
    match predict_loop done base results st with
    | (inr partial, st1) => predict_loop items base partial st1
    | (inl err, st1) => (inl err, st1)
    end.
Proof.
  induction done as [|[risk m] done IH]; intros base results st.
  - reflexivity.
  - cbn [app]. rewrite !predict_loop_cons.
    destruct (score_model risk m base st) as [[err|val] st1]; [reflexivity|].
    apply IH.
Qed.

(** The handler fails as soon as the loop does. *)
Lemma predict_risks_abort models input st err st1 :
  predict_loop models (base_features input) ∅ st = (inl err, st1) →
  predict_risks models input st = (inl err, st1).
Proof.
  intros E. unfold predict_risks, bind. rewrite E. reflexivity.
Qed.

(** What the startup loop leaves in [models]. *)
Lemma load_models_keys path_exists joblib_load models :
  load_models path_exists joblib_load = inr models →
  models.*1 = RISK_NAMES.
Proof.
  unfold load_models, MODEL_PATHS. cbn [load_from].
  repeat (destruct (path_exists _); cbn [negb]; [|discriminate];
          destruct (joblib_load _); [discriminate|]).
  intros [= <-]. reflexivity.
Qed.

(** ** What depends on the world only *)

Lemma ext_only_ret {E A} (a : A) : ext_only (ret (world := world) (E := E) a).
Proof. intros st st' Hw. now split. Qed.

Lemma ext_only_raise {E A} (e : E) : ext_only (raise (world := world) (A := A) e).
Proof. intros st st' Hw. now split. Qed.

Lemma ext_only_bind {E A B} (c : M (world := world) E A) (k : A → M E B) :
  ext_only c → (∀ a, ext_only (k a)) → ext_only (bind c k).
Proof.
  intros Hc Hk st st' Hw. unfold bind.
  destruct (Hc st st' Hw) as [H1 H2].
  destruct (c st) as [[e|a] s1], (c st') as [[e'|a'] s1']; cbn [fst snd] in *;
    try discriminate.
  - injection H1 as <-. now split.
  - injection H1 as <-. now apply Hk.
Qed.

Lemma ext_only_try {E E' A} (c : M (world := world) E A) (h : E → M E' A) :
  ext_only c → (∀ e, ext_only (h e)) → ext_only (try_except c h).
Proof.
  intros Hc Hh st st' Hw. unfold try_except.
  destruct (Hc st st' Hw) as [H1 H2].
  destruct (c st) as [[e|a] s1], (c st') as [[e'|a'] s1']; cbn [fst snd] in *;
    try discriminate.
  - injection H1 as <-. now apply Hh.
  - injection H1 as <-. now split.
Qed.

Lemma ext_only_predict_first risk m features :
  ext_only (predict_first risk m features).
Proof.
  intros st st' Hw. unfold predict_first. rewrite Hw.
  destruct (predict m [features] (ext st')) as [[e|batch] w]; now split.
Qed.

Lemma ext_only_py_zeros n : ext_only (py_zeros n).
Proof.
  intros st st' Hw. unfold py_zeros. rewrite Hw.
  destruct (padding_fits _ _); now split.
Qed.

Lemma ext_only_reshape expected base : ext_only (reshape expected base).
Proof.
  unfold reshape. destruct expected as [w|]; [|apply ext_only_ret].
  destruct (negb _); [|apply ext_only_ret].
  destruct (_ >? _); [|apply ext_only_ret].
  apply ext_only_bind; [apply ext_only_py_zeros|]. intros padding. apply ext_only_ret.
Qed.

Lemma ext_only_retry_padded risk m features : ext_only (retry_padded risk m features).
Proof.
  unfold retry_padded. apply ext_only_try; [apply ext_only_predict_first|].
  intros e2. destruct (exn_class_of e2); apply ext_only_raise.
Qed.

Lemma ext_only_obtain_prediction risk m features :
  ext_only (obtain_prediction risk m features).
Proof.
  unfold obtain_prediction. apply ext_only_try; [apply ext_only_predict_first|].
  intros e. destruct (exn_class_of e); try apply ext_only_raise.
  unfold on_value_error. destruct (re_search _ _); [|apply ext_only_raise].
  destruct (py_int_digits _); [|apply ext_only_raise].
  destruct (_ >? _); [|apply ext_only_raise].
  apply ext_only_bind; [apply ext_only_py_zeros|].
  intros padding. apply ext_only_retry_padded.
Qed.

Lemma ext_only_score_model risk m base : ext_only (score_model risk m base).
Proof.
  unfold score_model. apply ext_only_bind; [apply ext_only_reshape|].
  intros features. apply ext_only_bind; [apply ext_only_obtain_prediction|].
  intros pred. unfold to_score.
  destruct (py_float pred); [apply ext_only_ret|apply ext_only_raise].
Qed.

Lemma ext_only_predict_loop items : ∀ base results,
  ext_only (predict_loop items base results).
Proof.
  induction items as [|[risk m] items IH]; intros base results.
  - apply ext_only_ret.
  - cbn [predict_loop]. apply ext_only_bind; [apply ext_only_score_model|].
    intros val. apply IH.
Qed.

Lemma ext_only_predict_risks models input : ext_only (predict_risks models input).
Proof.
  unfold predict_risks. apply ext_only_bind.
  - apply ext_only_predict_loop.
  - intros results. destruct (RiskScores_of_kwargs results);
      [apply ext_only_ret|apply ext_only_raise].
Qed.

(** ** What leaves the world alone *)

Lemma keeps_ext_ret {E A} (a : A) : keeps_ext (ret (world := world) (E := E) a).
Proof. intros st. reflexivity. Qed.

Lemma keeps_ext_raise {E A} (e : E) : keeps_ext (raise (world := world) (A := A) e).
Proof. intros st. reflexivity. Qed.

Lemma keeps_ext_bind {E A B} (c : M (world := world) E A) (k : A → M E B) :
  keeps_ext c → (∀ a, keeps_ext (k a)) → keeps_ext (bind c k).
Proof.
  intros Hc Hk st. unfold bind. specialize (Hc st).
  destruct (c st) as [[e|a] s1]; cbn [snd] in *; [exact Hc|].
  now rewrite Hk.
Qed.

Lemma keeps_ext_try {E E' A} (c : M (world := world) E A) (h : E → M E' A) :
  keeps_ext c → (∀ e, keeps_ext (h e)) → keeps_ext (try_except c h).
Proof.
  intros Hc Hh st. unfold try_except. specialize (Hc st).
  destruct (c st) as [[e|a] s1]; cbn [snd] in *; [|exact Hc].
  now rewrite Hh.
Qed.

Lemma keeps_ext_predict_first risk m features :
  unchanged_by_predict m → keeps_ext (predict_first risk m features).
Proof.
  intros Hm st. rewrite predict_first_ext. apply Hm.
Qed.

Lemma keeps_ext_py_zeros n : keeps_ext (py_zeros n).
Proof. intros st. now rewrite py_zeros_state. Qed.

Lemma keeps_ext_reshape expected base : keeps_ext (reshape expected base).
Proof. intros st. now rewrite reshape_state. Qed.

Lemma keeps_ext_retry_padded risk m features :
  unchanged_by_predict m → keeps_ext (retry_padded risk m features).
Proof.
  intros Hm. unfold retry_padded.
  apply keeps_ext_try; [now apply keeps_ext_predict_first|].
  intros e2. destruct (exn_class_of e2); apply keeps_ext_raise.
Qed.

Lemma keeps_ext_obtain_prediction risk m features :
  unchanged_by_predict m → keeps_ext (obtain_prediction risk m features).
Proof.
  intros Hm. unfold obtain_prediction.
  apply keeps_ext_try; [now apply keeps_ext_predict_first|].
  intros e. destruct (exn_class_of e); try apply keeps_ext_raise.
  unfold on_value_error. destruct (re_search _ _); [|apply keeps_ext_raise].
  destruct (py_int_digits _); [|apply keeps_ext_raise].
  destruct (_ >? _); [|apply keeps_ext_raise].
  apply keeps_ext_bind; [apply keeps_ext_py_zeros|].
  intros padding. now apply keeps_ext_retry_padded.
Qed.

Lemma keeps_ext_score_model risk m base :
  unchanged_by_predict m → keeps_ext (score_model risk m base).
Proof.
  intros Hm. unfold score_model. apply keeps_ext_bind; [apply keeps_ext_reshape|].
  intros features. apply keeps_ext_bind; [now apply keeps_ext_obtain_prediction|].
  intros pred. unfold to_score.
  destruct (py_float pred); [apply keeps_ext_ret|apply keeps_ext_raise].
Qed.

Lemma keeps_ext_predict_loop items : ∀ base results,
  (∀ risk m, (risk, m) ∈ items → unchanged_by_predict m) →
  keeps_ext (predict_loop items base results).
Proof.
  induction items as [|[risk m] items IH]; intros base results Hall.
  - apply keeps_ext_ret.
  - cbn [predict_loop]. apply keeps_ext_bind.
    + apply keeps_ext_score_model. apply (Hall risk). left.
    + intros val. apply IH. intros r' m' Hin. apply (Hall r'). now right.
Qed.

Lemma keeps_ext_predict_risks models input :
  (∀ risk m, (risk, m) ∈ models → unchanged_by_predict m) →
  keeps_ext (predict_risks models input).
Proof.
  intros Hall. unfold predict_risks. apply keeps_ext_bind.
  - now apply keeps_ext_predict_loop.
  - intros results. destruct (RiskScores_of_kwargs results);
      [apply keeps_ext_ret|apply keeps_ext_raise].
Qed.

(** ** How many calls a request makes *)

(** The calls of one model: none when the padding of lines 89-94 is
    not built; otherwise one, or two on the path of the padded retry. *)
Lemma score_model_calls risk m base st :
  (∃ x, score_model risk m base st = (inl (Escaped x), st)
        ∧ reshape (detect_expected m) base st = (inl (Escaped x), st))
  ∨ ∃ features,
      reshape (detect_expected m) base st = (inr features, st)
      ∧ (calls (score_model risk m base st).2 = calls st ++ [(risk, features)]
         ∨ ∃ e w1 mt n1,
             predict m [features] (ext st) = (inl e, w1)
             ∧ exn_class_of e = ValueError
             ∧ re_search SHAPE_RE (exn_str e) = Some mt
             ∧ py_int_digits (group mt 1) = Some n1
             ∧ len features < n1
             ∧ padding_fits w1 (n1 - len features) = true
             ∧ calls (score_model risk m base st).2
               = calls st ++
                   [(risk, features); (risk, features ++ zeros (n1 - len features))]).
Proof.
  destruct (reshape_cases (detect_expected m) base st) as [[features R]|[err R]].
  - right. exists features. split; [exact R|].
    rewrite (score_model_state _ _ _ _ _ R). apply obtain_calls.
  - left. destruct (reshape_raises _ _ _ _ _ R) as (_ & w & _ & _ & _ & ->).
    eexists. split; [|exact R]. now apply score_model_no_padding.
Qed.

Lemma score_model_calls_bound risk m base st :
  (length (calls (score_model risk m base st).2) ≤ length (calls st) + 2)%nat.
Proof.
  destruct (score_model_calls risk m base st)
    as [(x & -> & _) | (features & _ & [-> | (e & w1 & mt & n1 & _ & _ & _ & _ & _ & _ & ->)])];
    cbn [snd]; rewrite ?length_app; cbn [length]; lia.
Qed.

Lemma predict_loop_calls_bound items : ∀ base results st,
  (length (calls (predict_loop items base results st).2)
   ≤ length (calls st) + 2 * length items)%nat.
Proof.
  induction items as [|[risk m] items IH]; intros base results st.
  - cbn. lia.
  - rewrite predict_loop_cons.
    pose proof (score_model_calls_bound risk m base st) as Hb.
    destruct (score_model risk m base st) as [[err|val] st1]; cbn [snd length] in *.
    + lia.
    + specialize (IH base (<[risk := val]> results) st1). lia.
Qed.

Lemma predict_risks_state models input st :
  (predict_risks models input st).2
  = (predict_loop models (base_features input) ∅ st).2.
Proof.
  unfold predict_risks, bind.
  destruct (predict_loop models (base_features input) ∅ st) as [[err|results] st1];
    [reflexivity|].
  destruct (RiskScores_of_kwargs results); reflexivity.
Qed.

End RequestFacts.

(** * Properties of a whole request *)

Section RequestProperties.

Context {world : Type} {py : Interpreter} {mem : Memory world}.

Implicit Types (m : model world) (st : run_state world).
Implicit Types (risk : string) (base : list float) (results : gmap string float).
Implicit Types (items models : list (string * model world)).

(** C1.  For a valid input, with the models the startup loop loaded, a
    run in which no model fails returns a response with exactly the five
    risk keys, every value of which lies in [0.0, 100.0]; the response
    holds the dictionary the loop built, entry for entry. *)
Theorem C1_five_scores_in_range path_exists joblib_load models input st :
  valid_input input →
  load_models path_exists joblib_load = inr models →
  every_model_scores models (base_features input) st →
  ∃ scores st',
    predict_risks models input st = (inr scores, st')
    ∧ predict_loop models (base_features input) ∅ st = (inr (RiskScores_dict scores), st')
    ∧ dom (RiskScores_dict scores) = (list_to_set RISK_NAMES : gset string)
    ∧ ∀ k v, RiskScores_dict scores !! k = Some v → between 0 100 v.
Proof.
  intros _ Hload Hall.
  destruct (predict_loop_ok models (base_features input) ∅ st Hall)
    as (results & st' & Hloop & Hdom & Hval).
  rewrite (load_models_keys _ _ _ Hload) in Hdom.
  assert (Hkey : ∀ k, k ∈ RISK_NAMES → ∃ v, results !! k = Some v ∧ between 0 100 v).
  { intros k Hk. assert (Hin : k ∈ dom results) by (rewrite Hdom; set_solver).
    apply elem_of_dom in Hin as [v Hv]. exists v. split; [exact Hv|].
    destruct (Hval k v Hv) as [Hi|Hb]; [|exact Hb].
    rewrite lookup_empty in Hi. discriminate. }
  destruct (Hkey "phishing_risk") as (a & Ha & Ba); [unfold RISK_NAMES; set_solver|].
  destruct (Hkey "weak_password_risk") as (b & Hb & Bb); [unfold RISK_NAMES; set_solver|].
  destruct (Hkey "oversharing_risk") as (c & Hc & Bc); [unfold RISK_NAMES; set_solver|].
  destruct (Hkey "emotional_manipulation_risk") as (d & Hd & Bd);
    [unfold RISK_NAMES; set_solver|].
  destruct (Hkey "update_ignorance_risk") as (e & He & Be);
    [unfold RISK_NAMES; set_solver|].
  exists {| phishing_risk := a; weak_password_risk := b; oversharing_risk := c;
            emotional_manipulation_risk := d; update_ignorance_risk := e |}, st'.
  split; [|split; [|split]].
  - unfold predict_risks, bind. rewrite Hloop.
    unfold RiskScores_of_kwargs. rewrite Ha, Hb, Hc, Hd, He. reflexivity.
  - rewrite Hloop. f_equal. f_equal. apply map_eq. intros k.
    unfold RiskScores_dict.
    cbn [phishing_risk weak_password_risk oversharing_risk
         emotional_manipulation_risk update_ignorance_risk].
    repeat (rewrite lookup_insert; case_decide; [subst k; congruence|]).
    rewrite lookup_empty. apply not_elem_of_dom. rewrite Hdom.
    unfold RISK_NAMES. set_solver.
  - unfold RiskScores_dict, RISK_NAMES. rewrite !dom_insert_L, dom_empty_L.
    cbn [list_to_set]. reflexivity.
  - intros k v Hk. unfold RiskScores_dict in Hk.
    cbn [phishing_risk weak_password_risk oversharing_risk
         emotional_manipulation_risk update_ignorance_risk] in Hk.
    repeat (rewrite lookup_insert in Hk; case_decide;
            [injection Hk as <-; assumption|]).
    rewrite lookup_empty in Hk. discriminate.
Qed.

(** C7.  The first model that fails, whether its padding cannot be
    built, its calls raise or its prediction is not numeric, fails the
    whole request with that model's error, in the state that model left:
    no response object is returned and no later model is called.  A
    request that returns scored every model.  A model is called at most
    twice: not at all when the padding to its expected width is not
    built; otherwise once with its reshaped vector, and a second and
    last time only on the path of the padded retry, that is when the
    first call raised a [ValueError] whose message matches the pattern,
    [int()] reads from it a width above the length of the vector, and
    the padding to that width is built.  A request over [n] models makes
    at most [2 n] calls. *)
Theorem C7_any_failure_aborts models input st :
  (∀ done risk m rest partial st1 err st2,
     models = done ++ (risk, m) :: rest →
     predict_loop done (base_features input) ∅ st = (inr partial, st1) →
     score_model risk m (base_features input) st1 = (inl err, st2) →
     predict_risks models input st = (inl err, st2))
  ∧ (∀ scores st',
       predict_risks models input st = (inr scores, st') →
       every_model_scores models (base_features input) st)
  ∧ (∀ risk m base st0,
       (∃ x, score_model risk m base st0 = (inl (Escaped x), st0)
             ∧ reshape (detect_expected m) base st0 = (inl (Escaped x), st0))
       ∨ ∃ features,
           reshape (detect_expected m) base st0 = (inr features, st0)
           ∧ (calls (score_model risk m base st0).2 = calls st0 ++ [(risk, features)]
              ∨ ∃ e w1 mt n1,
                  predict m [features] (ext st0) = (inl e, w1)
                  ∧ exn_class_of e = ValueError
                  ∧ re_search SHAPE_RE (exn_str e) = Some mt
                  ∧ py_int_digits (group mt 1) = Some n1
                  ∧ len features < n1
                  ∧ padding_fits w1 (n1 - len features) = true
                  ∧ calls (score_model risk m base st0).2
                    = calls st0 ++
                        [(risk, features);
                         (risk, features ++ zeros (n1 - len features))]))
  ∧ (length (calls (predict_risks models input st).2)
     ≤ length (calls st) + 2 * length models)%nat.
Proof.
  split; [|split; [|split]].
  - intros done risk m rest partial st1 err st2 -> Hdone Hfail.
    apply predict_risks_abort.
    rewrite predict_loop_app, Hdone, predict_loop_cons, Hfail. reflexivity.
  - intros scores st'. unfold predict_risks, bind.
    destruct (predict_loop models (base_features input) ∅ st)
      as [[err|results] st1] eqn:E; [discriminate|].
    intros _. eapply predict_loop_returns, E.
  - intros risk m base st0. apply score_model_calls.
  - rewrite predict_risks_state. apply predict_loop_calls_bound.
Qed.

(** C8.  With models whose [predict] leaves the world as it found it,
    two requests with the same input, one after the other, give the same
    outcome. *)
Theorem C8_same_input_same_output models input st :
  (∀ risk m, (risk, m) ∈ models → unchanged_by_predict m) →
  (predict_risks models input (predict_risks models input st).2).1
  = (predict_risks models input st).1.
Proof.
  intros Hall. apply ext_only_predict_risks.
  now apply keeps_ext_predict_risks.
Qed.

End RequestProperties.

(** * The claims at sample models *)

(** C6 at a model that predicts 142.7, and at one that predicts -15. *)
Lemma C6_witness :
  (score_model (py := Samples.cpython) (mem := Samples.roomy)
     "phishing_risk" (Samples.constant (PyFloat 142.7)) [1; 2; 3; 4; 5]%float
     (Samples.start ())).1 = inr 100%float
  ∧ (score_model (py := Samples.cpython) (mem := Samples.roomy)
       "phishing_risk" (Samples.constant (PyInt (-15))) [1; 2; 3; 4; 5]%float
     (Samples.start ())).1 = inr 0%float.
Proof.
  split.
  - pose proof (@C6_recorded_score_is_clamped unit Samples.cpython Samples.roomy
      "phishing_risk" (Samples.constant (PyFloat 142.7)) [1; 2; 3; 4; 5]%float
      (Samples.start ()) [1; 2; 3; 4; 5]%float (PyFloat 142.7) _ 142.7%float [] ∅
      eq_refl eq_refl eq_refl) as (Hs & _ & _ & Hhi & _).
    rewrite Hs, (Hhi eq_refl). reflexivity.
  - pose proof (@C6_recorded_score_is_clamped unit Samples.cpython Samples.roomy
      "phishing_risk" (Samples.constant (PyInt (-15))) [1; 2; 3; 4; 5]%float
      (Samples.start ()) [1; 2; 3; 4; 5]%float (PyInt (-15)) _ (-15)%float [] ∅
      eq_refl eq_refl eq_refl) as (Hs & _ & Hlo & _).
    rewrite Hs, (Hlo eq_refl). reflexivity.
Defined.


(** C2 as worded fails at a model whose [n_features_in_] is -1: the
    slice [features[:-1]] keeps four features, where "the first w of the
    5 features" keeps none. *)
Lemma C2_counterexample :
  ¬ width_reconciled_as_worded (world := unit) (py := Samples.cpython)
      (mem := Samples.roomy).
Proof.
  intros Hc.
  specialize (Hc "phishing_risk"
    (Samples.stateless [("n_features_in_", PyInt (-1))] (λ _, inr [PyFloat 50]))
    [10; 20; 30; 40; 50]%float (Samples.start ()) (-1) eq_refl eq_refl
    ltac:(discriminate)).
  vm_compute in Hc. discriminate Hc.
Qed.

(** What the model of that counterexample is called with. *)
Example negative_width_keeps_four_features :
  calls (score_model (py := Samples.cpython) (mem := Samples.roomy) "phishing_risk"
           (Samples.stateless [("n_features_in_", PyInt (-1))] (λ _, inr [PyFloat 50]))
           [10; 20; 30; 40; 50]%float (Samples.start ())).2
  = [("phishing_risk", [10; 20; 30; 40]%float)].
Proof. vm_compute. reflexivity. Qed.

(** A width of [2^63 + 5] asks for a list of [2^63] zeros: the model is
    not called and the [OverflowError] leaves the handler. *)
Example huge_width_overflows :
  score_model (py := Samples.cpython) (mem := Samples.roomy) "phishing_risk"
    (Samples.stateless [("n_features_in_", PyInt (2 ^ 63 + 5))] (λ _, inr [PyFloat 50]))
    [10; 20; 30; 40; 50]%float (Samples.start ())
  = (inl (Escaped ListOverflowError), Samples.start ()).
Proof. vm_compute. reflexivity. Qed.

(** C2, amended, at a model expecting 8 features, which predicts 50, and
    at one expecting 3. *)
Lemma C2_witness :
  score_model (py := Samples.cpython) (mem := Samples.roomy) "phishing_risk"
    (Samples.stateless [("n_features_in_", PyInt 8)] (λ _, inr [PyFloat 50]))
    [10; 20; 30; 40; 50]%float (Samples.start ())
  = (inr 50%float,
     {| ext := ();
        calls := [("phishing_risk", [10; 20; 30; 40; 50; 0; 0; 0]%float)] |})
  ∧ calls (score_model (py := Samples.cpython) (mem := Samples.roomy) "phishing_risk"
           (Samples.stateless [("n_features_in_", PyInt 3)] (λ _, inr [PyFloat 50]))
           [10; 20; 30; 40; 50]%float (Samples.start ())).2 !! 0%nat
  = Some ("phishing_risk", [10; 20; 30]%float).
Proof.
  split.
  - destruct (@C2_width_reconciliation unit Samples.cpython Samples.roomy "phishing_risk"
      (Samples.stateless [("n_features_in_", PyInt 8)] (λ _, inr [PyFloat 50]))
      [10; 20; 30; 40; 50]%float (Samples.start ()) 8 eq_refl eq_refl)
      as (Hpad & _).
    destruct (Hpad eq_refl eq_refl) as (_ & Hret & _).
    exact (Hret (PyFloat 50) [] () 50%float eq_refl eq_refl).
  - destruct (@C2_width_reconciliation unit Samples.cpython Samples.roomy "phishing_risk"
      (Samples.stateless [("n_features_in_", PyInt 3)] (λ _, inr [PyFloat 50]))
      [10; 20; 30; 40; 50]%float (Samples.start ()) 3 eq_refl eq_refl)
      as (_ & _ & Htrim & _).
    destruct (Htrim ltac:(split; [discriminate|reflexivity])) as (Hlog & _).
    exact Hlog.
Defined.

(** C5 at a model whose [n_features_in_] is not a number while its
    [n_features_] is 8: the width is unknown and the base vector goes
    out unchanged. *)
Lemma C5_witness :
  calls (score_model (py := Samples.cpython) (mem := Samples.roomy) "phishing_risk"
           (Samples.stateless [("n_features_in_", PyNone); ("n_features_", PyInt 8)]
              (λ _, inr [PyFloat 50]))
           [10; 20; 30; 40; 50]%float (Samples.start ())).2 !! 0%nat
  = Some ("phishing_risk", [10; 20; 30; 40; 50]%float).
Proof.
  destruct (@C5_width_introspection unit Samples.cpython Samples.roomy "phishing_risk"
    (Samples.stateless [("n_features_in_", PyNone); ("n_features_", PyInt 8)]
       (λ _, inr [PyFloat 50]))
    [10; 20; 30; 40; 50]%float (Samples.start ())) as (Hfirst & _ & _ & Hbase).
  exact (proj1 (Hbase (Hfirst PyNone eq_refl))).
Defined.


(** C3 as worded fails: the message "Expected 7, got 5" matches when case
    is ignored and names a width above 5, yet the handler makes no second
    call. *)
Lemma C3_counterexample :
  ¬ retry_on_any_case_match (world := unit) (py := Samples.cpython)
      (mem := Samples.roomy).
Proof.
  intros Hc.
  specialize (Hc "phishing_risk"
    (Samples.fixed_width [] 7 (codes "Expected 7, got 5") (PyFloat 50))
    [10; 20; 30; 40; 50]%float (Samples.start ()) _
    (PyExn ValueError (codes "Expected 7, got 5")) [codes "7"; codes "5"]
    eq_refl eq_refl eq_refl eq_refl).
  vm_compute in Hc. discriminate Hc.
Qed.

(** What the handler answers to "Expected 7, got 5". *)
Example capitalised_message_is_not_retried :
  score_model (py := Samples.cpython) (mem := Samples.roomy) "phishing_risk"
    (Samples.fixed_width [] 7 (codes "Expected 7, got 5") (PyFloat 50))
    [10; 20; 30; 40; 50]%float (Samples.start ())
  = (inl (Raised (mkHTTPException 500 (codes "Prediction error: Expected 7, got 5"))),
     {| ext := (); calls := [("phishing_risk", [10; 20; 30; 40; 50]%float)] |}).
Proof. vm_compute. reflexivity. Qed.

(** The digits of the message may come from any script: with the
    Arabic-Indic digit seven, U+0667, for the expected width the handler
    pads to seven features and retries. *)
Example arabic_indic_width_is_read :
  score_model (py := Samples.cpython) (mem := Samples.roomy) "phishing_risk"
    (Samples.fixed_width [] 7 (codes "expected " ++ [1639%N] ++ codes ", got 5")
       (PyFloat 50))
    [10; 20; 30; 40; 50]%float (Samples.start ())
  = (inr 50%float,
     {| ext := ();
        calls := [ ("phishing_risk", [10; 20; 30; 40; 50]%float);
                   ("phishing_risk", [10; 20; 30; 40; 50; 0; 0]%float) ] |}).
Proof. vm_compute. reflexivity. Qed.

(** A width of 4301 digits is beyond the digit limit of [int()]: its
    [ValueError] leaves the handler after the one call. *)
Example long_width_is_not_read :
  score_model (py := Samples.cpython) (mem := Samples.roomy) "phishing_risk"
    (Samples.raising []
       (PyExn ValueError (codes "expected " ++ replicate 4301 49%N ++ codes ", got 5")))
    [10; 20; 30; 40; 50]%float (Samples.start ())
  = (inl (Escaped IntValueError),
     {| ext := (); calls := [("phishing_risk", [10; 20; 30; 40; 50]%float)] |}).
Proof. vm_compute. reflexivity. Qed.

(** A width of [2^63 + 5] in the message asks for [2^63] zeros: no retry
    is made and the [OverflowError] leaves the handler. *)
Example huge_padding_is_not_retried :
  score_model (py := Samples.cpython) (mem := Samples.roomy) "phishing_risk"
    (Samples.raising []
       (PyExn ValueError (codes "expected 9223372036854775813, got 5")))
    [10; 20; 30; 40; 50]%float (Samples.start ())
  = (inl (Escaped ListOverflowError),
     {| ext := (); calls := [("phishing_risk", [10; 20; 30; 40; 50]%float)] |}).
Proof. vm_compute. reflexivity. Qed.

(** An exception of [predict] outside [Exception] passes both handlers. *)
Example keyboard_interrupt_passes :
  score_model (py := Samples.cpython) (mem := Samples.roomy) "phishing_risk"
    (Samples.raising [] (PyExn NoException (codes "")))
    [10; 20; 30; 40; 50]%float (Samples.start ())
  = (inl (Escaped (FromModel (PyExn NoException (codes "")))),
     {| ext := (); calls := [("phishing_risk", [10; 20; 30; 40; 50]%float)] |}).
Proof. vm_compute. reflexivity. Qed.

(** C3, amended, at a model that asks for 7 features in lower case. *)
Lemma C3_witness :
  calls (score_model (py := Samples.cpython) (mem := Samples.roomy) "phishing_risk"
           (Samples.fixed_width [] 7 (codes "expected 7, got 5") (PyFloat 142.7))
           [10; 20; 30; 40; 50]%float (Samples.start ())).2
  = [ ("phishing_risk", [10; 20; 30; 40; 50]%float);
      ("phishing_risk", [10; 20; 30; 40; 50; 0; 0]%float) ]
  ∧ score_model (py := Samples.cpython) (mem := Samples.roomy) "phishing_risk"
      (Samples.fixed_width [] 7 (codes "expected 7, got 5") (PyFloat 142.7))
      [10; 20; 30; 40; 50]%float (Samples.start ())
    = (inr 100%float,
       {| ext := ();
          calls := [ ("phishing_risk", [10; 20; 30; 40; 50]%float);
                     ("phishing_risk", [10; 20; 30; 40; 50; 0; 0]%float) ] |}).
Proof.
  destruct (@C3_padding_retry unit Samples.cpython Samples.roomy "phishing_risk"
    (Samples.fixed_width [] 7 (codes "expected 7, got 5") (PyFloat 142.7))
    [10; 20; 30; 40; 50]%float (Samples.start ()) [10; 20; 30; 40; 50]%float
    (PyExn ValueError (codes "expected 7, got 5")) () [codes "7"; codes "5"] 7
    eq_refl eq_refl eq_refl eq_refl eq_refl eq_refl eq_refl)
    as (_ & _ & _ & Hcalls & Hscore).
  split.
  - exact Hcalls.
  - exact (Hscore (PyFloat 142.7) [] () 142.7%float eq_refl eq_refl).
Defined.

(** C4 as worded fails: when the retry raises "boom", the detail of the
    response does not carry the message of the first error. *)
Lemma C4_counterexample :
  ¬ unresolved_error_carries_original (world := unit) (py := Samples.cpython)
      (mem := Samples.roomy).
Proof.
  intros Hc.
  destruct (Hc "phishing_risk"
    (Samples.always_failing 7 (codes "expected 7, got 5") (codes "boom"))
    [10; 20; 30; 40; 50]%float (Samples.start ()) _
    (PyExn ValueError (codes "expected 7, got 5")) eq_refl eq_refl)
    as (err & st' & O & Hin).
  - left. exists [codes "7"; codes "5"], (PyExn OtherException (codes "boom")). eexists.
    split; [reflexivity|]. split; [reflexivity|]. reflexivity.
  - vm_compute in O. injection O as <- <-. vm_compute in Hin. discriminate Hin.
Qed.

(** C4, amended, at a model whose retry raises "boom". *)
Lemma C4_witness :
  (score_model (py := Samples.cpython) (mem := Samples.roomy) "phishing_risk"
     (Samples.always_failing 7 (codes "expected 7, got 5") (codes "boom"))
     [10; 20; 30; 40; 50]%float (Samples.start ())).1
  = inl (Raised (mkHTTPException 500 (codes "Prediction error after padding: boom"))).
Proof.
  destruct (@C4_unresolved_value_error unit Samples.cpython Samples.roomy "phishing_risk"
    (Samples.always_failing 7 (codes "expected 7, got 5") (codes "boom"))
    [10; 20; 30; 40; 50]%float (Samples.start ()) [10; 20; 30; 40; 50]%float
    (PyExn ValueError (codes "expected 7, got 5")) () eq_refl eq_refl eq_refl)
    as (_ & _ & _ & Hretry).
  rewrite (Hretry [codes "7"; codes "5"] 7 (PyExn OtherException (codes "boom")) ()
             eq_refl eq_refl eq_refl eq_refl eq_refl ltac:(discriminate)).
  reflexivity.
Defined.

(** C1 at five models that all predict 250, for the profile of all
    zeros. *)
Lemma C1_witness :
  ∃ scores st',
    predict_risks (py := Samples.cpython) (mem := Samples.roomy)
      (Samples.five (Samples.constant (PyInt 250))) (Samples.profile 0 0 0 0 0)
      (Samples.start ()) = (inr scores, st')
    ∧ predict_loop (py := Samples.cpython) (mem := Samples.roomy)
        (Samples.five (Samples.constant (PyInt 250)))
        (base_features (Samples.profile 0 0 0 0 0)) ∅ (Samples.start ())
      = (inr (RiskScores_dict scores), st')
    ∧ dom (RiskScores_dict scores) = (list_to_set RISK_NAMES : gset string)
    ∧ ∀ k v, RiskScores_dict scores !! k = Some v → between 0 100 v.
Proof.
  apply (@C1_five_scores_in_range unit Samples.cpython Samples.roomy
    (λ _, true) (λ _, inr (Samples.constant (PyInt 250)))).
  - repeat constructor; discriminate.
  - vm_compute. reflexivity.
  - vm_compute. exact I.
Defined.

(** C7 at five models of which the third predicts [None]: the request
    fails with the error of the third model after three calls. *)
Lemma C7_witness :
  predict_risks (py := Samples.cpython) (mem := Samples.roomy)
    [ ("phishing_risk", Samples.constant (PyFloat 10));
      ("weak_password_risk", Samples.constant (PyFloat 20));
      ("oversharing_risk", Samples.constant PyNone);
      ("emotional_manipulation_risk", Samples.constant (PyFloat 40));
      ("update_ignorance_risk", Samples.constant (PyFloat 50)) ]
    (Samples.profile 1 2 3 4 5) (Samples.start ())
  = (inl (Raised (mkHTTPException 500
            (codes "Model returned non-numeric prediction for oversharing_risk"))),
     {| ext := ();
        calls := [ ("phishing_risk", [1; 2; 3; 4; 5]%float);
                   ("weak_password_risk", [1; 2; 3; 4; 5]%float);
                   ("oversharing_risk", [1; 2; 3; 4; 5]%float) ] |}).
Proof.
  refine (proj1 (@C7_any_failure_aborts unit Samples.cpython Samples.roomy
    [ ("phishing_risk", Samples.constant (PyFloat 10));
      ("weak_password_risk", Samples.constant (PyFloat 20));
      ("oversharing_risk", Samples.constant PyNone);
      ("emotional_manipulation_risk", Samples.constant (PyFloat 40));
      ("update_ignorance_risk", Samples.constant (PyFloat 50)) ]
    (Samples.profile 1 2 3 4 5) (Samples.start ()))
    [ ("phishing_risk", Samples.constant (PyFloat 10));
      ("weak_password_risk", Samples.constant (PyFloat 20)) ]
    "oversharing_risk" (Samples.constant PyNone)
    [ ("emotional_manipulation_risk", Samples.constant (PyFloat 40));
      ("update_ignorance_risk", Samples.constant (PyFloat 50)) ]
    (<["weak_password_risk" := 20%float]> (<["phishing_risk" := 10%float]> ∅))
    {| ext := ();
       calls := [ ("phishing_risk", [1; 2; 3; 4; 5]%float);
                  ("weak_password_risk", [1; 2; 3; 4; 5]%float) ] |}
    (Raised (mkHTTPException 500
       (codes "Model returned non-numeric prediction for oversharing_risk")))
    {| ext := ();
       calls := [ ("phishing_risk", [1; 2; 3; 4; 5]%float);
                  ("weak_password_risk", [1; 2; 3; 4; 5]%float);
                  ("oversharing_risk", [1; 2; 3; 4; 5]%float) ] |}
    eq_refl _ _).
  - vm_compute. reflexivity.
  - vm_compute. reflexivity.
Defined.

Lemma stateless_unchanged attributes f :
  unchanged_by_predict (Samples.stateless attributes f).
Proof. intros batch w. reflexivity. Qed.

(** C8 at five stateless models. *)
Lemma C8_witness :
  (predict_risks (py := Samples.cpython) (mem := Samples.roomy)
     (Samples.five (Samples.constant (PyFloat 142.7))) (Samples.profile 1 2 3 4 5)
     (predict_risks (py := Samples.cpython) (mem := Samples.roomy)
        (Samples.five (Samples.constant (PyFloat 142.7))) (Samples.profile 1 2 3 4 5)
        (Samples.start ())).2).1
  = (predict_risks (py := Samples.cpython) (mem := Samples.roomy)
       (Samples.five (Samples.constant (PyFloat 142.7))) (Samples.profile 1 2 3 4 5)
       (Samples.start ())).1.
Proof.
  apply (@C8_same_input_same_output unit Samples.cpython Samples.roomy).
  intros risk m Hin. unfold Samples.five in Hin.
  apply list_elem_of_fmap in Hin as (name & [= _ ->] & _).
  apply stateless_unchanged.
Defined.

(** Without the hypothesis of C8 the two outcomes can differ: a model
    that counts its calls predicts 0 in the first request and 5 in the
    second. *)
Example counting_models_are_not_idempotent :
  (predict_risks (py := Samples.cpython) (mem := Samples.roomy)
     (Samples.five Samples.counting) (Samples.profile 1 2 3 4 5)
     (predict_risks (py := Samples.cpython) (mem := Samples.roomy)
        (Samples.five Samples.counting) (Samples.profile 1 2 3 4 5)
        (Samples.start 0)).2).1
  ≠ (predict_risks (py := Samples.cpython) (mem := Samples.roomy)
       (Samples.five Samples.counting) (Samples.profile 1 2 3 4 5)
       (Samples.start 0)).1.
Proof.
  intros Heq.
  apply (f_equal (λ r, match r with
                       | inr scores => PrimFloat.ltb (phishing_risk scores) 1
                       | inl _ => false
                       end)) in Heq.
  vm_compute in Heq. discriminate Heq.
Qed.

(** * The rest of the service *)

Section ServiceFacts.

Context {world : Type}.

Implicit Types (path_exists : string → bool).
Implicit Types (joblib_load : string → py_exn + model world).

(** The loading loop goes through the paths that exist and load. *)
Lemma load_from_good path_exists joblib_load done rest :
  Forall (λ e, path_exists e.2 = true ∧ ∃ v, joblib_load e.2 = inr v) done →
  ∀ acc, ∃ acc', load_from path_exists joblib_load (done ++ rest) acc
                 = load_from path_exists joblib_load rest acc'.
Proof.
  intros Hdone.
  induction Hdone as [|[r p] done [Hp [v Hv]] Hdone IH]; intros acc.
  - exists acc. reflexivity.
  - cbn [app load_from snd] in *. rewrite Hp, Hv. cbn [negb]. apply IH.
Qed.

(** X1.  Startup succeeds exactly when every one of the five model files
    exists and [joblib.load] returns a model for it, and then [models]
    holds, in the order of [MODEL_PATHS], each risk name with the model
    loaded from its own path. *)
Theorem X1_startup_loads_every_model path_exists joblib_load models :
  load_models path_exists joblib_load = inr models
  ↔ Forall2 (loaded_entry path_exists joblib_load) MODEL_PATHS models.
Proof.
  unfold load_models, MODEL_PATHS, loaded_entry. split.
  - intros Hload. cbn [load_from] in Hload.
    destruct (path_exists "models/phishing_risk_model.pkl") eqn:E1;
      cbn [negb] in Hload; [|discriminate Hload].
    destruct (joblib_load "models/phishing_risk_model.pkl") as [?|v1] eqn:J1;
      [discriminate Hload|].
    destruct (path_exists "models/weak_password_risk_model.pkl") eqn:E2;
      cbn [negb] in Hload; [|discriminate Hload].
    destruct (joblib_load "models/weak_password_risk_model.pkl") as [?|v2] eqn:J2;
      [discriminate Hload|].
    destruct (path_exists "models/oversharing_risk_model.pkl") eqn:E3;
      cbn [negb] in Hload; [|discriminate Hload].
    destruct (joblib_load "models/oversharing_risk_model.pkl") as [?|v3] eqn:J3;
      [discriminate Hload|].
    destruct (path_exists "models/emotional_manipulation_risk_model.pkl") eqn:E4;
      cbn [negb] in Hload; [|discriminate Hload].
    destruct (joblib_load "models/emotional_manipulation_risk_model.pkl") as [?|v4] eqn:J4;
      [discriminate Hload|].
    destruct (path_exists "models/update_ignorance_risk_model.pkl") eqn:E5;
      cbn [negb] in Hload; [|discriminate Hload].
    destruct (joblib_load "models/update_ignorance_risk_model.pkl") as [?|v5] eqn:J5;
      [discriminate Hload|].
    injection Hload as <-. cbn [dict_set String.eqb Ascii.eqb Bool.eqb].
    repeat (apply Forall2_cons_2; [cbn [fst snd]; auto|]). apply Forall2_nil_2.
  - intros Hall.
    repeat match goal with
      | H : Forall2 _ (_ :: _) _ |- _ =>
          apply Forall2_cons_inv_l in H as ([? ?] & ? & (? & ? & ?) & ? & ->)
      | H : Forall2 _ [] _ |- _ => apply Forall2_nil_inv_l in H as ->
      end.
    cbn [fst snd] in *. subst. cbn [load_from].
    repeat match goal with
      | H : path_exists _ = true |- _ => rewrite H; clear H
      | H : joblib_load _ = inr _ |- _ => rewrite H; clear H
      end.
    reflexivity.
Qed.

(** X2.  Startup fails at the first path, in the order of [MODEL_PATHS],
    that does not exist or does not load: with the [RuntimeError] "Model
    file not found: " followed by that path when the file is missing,
    and with the exception of [joblib.load] when the file is there and
    loading it raises. *)
Theorem X2_startup_fails_at_first_bad_file path_exists joblib_load done entry rest :
  MODEL_PATHS = done ++ entry :: rest →
  Forall (λ e, path_exists e.2 = true ∧ ∃ v, joblib_load e.2 = inr v) done →
  (path_exists entry.2 = false →
   load_models path_exists joblib_load
   = inl (ModelFileNotFound ("Model file not found: " +:+ entry.2)))
  ∧ (∀ e, path_exists entry.2 = true → joblib_load entry.2 = inl e →
          load_models path_exists joblib_load = inl (LoadRaised e)).
Proof.
  intros Hsplit Hdone. unfold load_models. rewrite Hsplit.
  destruct (load_from_good path_exists joblib_load done (entry :: rest) Hdone [])
    as [acc ->].
  destruct entry as [r p]. cbn [load_from snd]. split.
  - intros ->. reflexivity.
  - intros e -> ->. reflexivity.
Qed.

(** X3.  After a successful startup the health endpoint reports five
    loaded models and the five risk names, in the order of the response
    schema. *)
Theorem X3_health_after_startup path_exists joblib_load models :
  load_models path_exists joblib_load = inr models →
  root models = {| status := "healthy"; models_loaded := 5;
                   available_predictions := RISK_NAMES |}.
Proof.
  intros Hload. pose proof (load_models_keys _ _ _ Hload) as Hkeys.
  unfold root, len. rewrite Hkeys.
  assert (L : length models = 5%nat).
  { rewrite <- (length_fmap fst models), Hkeys. reflexivity. }
  now rewrite L.
Qed.

End ServiceFacts.
(** * The CORS origins *)

Section OriginFacts.

Lemma split_on_not_nil sep s : split_on sep s ≠ [].
Proof.
  destruct s as [|c s]; cbn [split_on]; [discriminate|].
  destruct (Ascii.eqb c sep); [discriminate|].
  destruct (split_on sep s); discriminate.
Qed.

Lemma split_on_cons sep c s :
  split_on sep (String c s) =
    if Ascii.eqb c sep then "" :: split_on sep s
    else match split_on sep s with
         | piece :: pieces => String c piece :: pieces
         | [] => [String c ""]
         end.
Proof. reflexivity. Qed.

Lemma join_with_cons sep piece piece' rest :
  join_with sep (piece :: piece' :: rest)
  = piece +:+ sep +:+ join_with sep (piece' :: rest).
Proof. reflexivity. Qed.

Lemma join_split (sep : ascii) (s : string) :
  join_with (String sep "") (split_on sep s) = s.
Proof.
  induction s as [|c s IH]; [reflexivity|].
  rewrite split_on_cons. destruct (Ascii.eqb_spec c sep) as [->|Hne].
  - pose proof (split_on_not_nil sep s) as Hn.
    destruct (split_on sep s) as [|p ps]; [contradiction|].
    rewrite join_with_cons, IH. reflexivity.
  - pose proof (split_on_not_nil sep s) as Hn.
    destruct (split_on sep s) as [|p ps]; [contradiction|].
    destruct ps as [|p' ps].
    + cbn [join_with] in *. now rewrite IH.
    + rewrite join_with_cons in *. rewrite <- IH. reflexivity.
Qed.

Lemma split_on_length (sep : ascii) (s : string) :
  length (split_on sep s) = S (count_char sep s).
Proof.
  induction s as [|c s IH]; [reflexivity|].
  rewrite split_on_cons. cbn [count_char]. destruct (Ascii.eqb c sep).
  - cbn [length]. lia.
  - pose proof (split_on_not_nil sep s) as Hn.
    destruct (split_on sep s) as [|p ps]; [contradiction|].
    cbn [length] in *. lia.
Qed.

Lemma split_on_pieces (sep : ascii) (s : string) :
  Forall (λ piece, count_char sep piece = 0%nat) (split_on sep s).
Proof.
  induction s as [|c s IH]; [repeat constructor|].
  rewrite split_on_cons. destruct (Ascii.eqb c sep) eqn:E.
  - constructor; [reflexivity|exact IH].
  - destruct (split_on sep s) as [|p ps].
    + repeat constructor. cbn [count_char]. now rewrite E.
    + apply Forall_cons_1 in IH as [Hp Hps]. constructor; [|exact Hps].
      cbn [count_char]. now rewrite E, Hp.
Qed.

(** X4.  The allowed origins are the pieces of the variable's value (of
    "*" when it is not set) between its commas: joining them with commas
    gives the value back, so nothing is trimmed or dropped; there is one
    origin more than there are commas, so the list is never empty; and no
    origin holds a comma. *)
Theorem X4_allowed_origins_split (env : option string) :
  join_with "," (allowed_origins env) = default "*" env
  ∧ length (allowed_origins env) = S (count_char "," (default "*" env))
  ∧ Forall (λ origin, count_char "," origin = 0%nat) (allowed_origins env)
  ∧ allowed_origins None = ["*"].
Proof.
  unfold allowed_origins. repeat split.
  - apply join_split.
  - apply split_on_length.
  - apply split_on_pieces.
Qed.

End OriginFacts.

(** * More about floats *)

Section MoreFloatFacts.

(** A float that is not equal to itself is a NaN. *)
Lemma is_nan_spec (v : float) : is_nan v = true → Prim2SF v = S754_nan.
Proof.
  unfold is_nan. rewrite FloatAxioms.eqb_spec. unfold SFeqb.
  destruct (Prim2SF v) as [[]|[]| |[] m e];
    cbv beta iota delta [SFcompare]; try discriminate; try reflexivity;
    rewrite Z.compare_refl, Pos.compare_cont_refl; discriminate.
Qed.

Lemma nan_not_below (v w : float) : is_nan v = true → PrimFloat.ltb v w = false.
Proof.
  intros Hn. rewrite ltb_spec, (is_nan_spec v Hn). reflexivity.
Qed.

(** The clamp is never the negative zero. *)
Lemma clamp_not_negative_zero (v : float) : clamp v ≠ (-0)%float.
Proof.
  rewrite clamp_cases.
  destruct (PrimFloat.ltb v 100) eqn:E1; [destruct (PrimFloat.ltb 0 v) eqn:E2|].
  - intros ->. vm_compute in E2. discriminate E2.
  - intros Hc. apply (f_equal Prim2SF) in Hc. vm_compute in Hc. discriminate Hc.
  - intros Hc. apply (f_equal Prim2SF) in Hc. vm_compute in Hc. discriminate Hc.
Qed.

(** Every integer a trait may take converts exactly. *)
Lemma traits_exact : forallb trait_exact (map Z.of_nat (seq 0 101)) = true.
Proof. vm_compute. reflexivity. Qed.

Lemma trait_float (z : Z) :
  0 ≤ z ≤ 100 →
  float_trunc (int_to_float z) = Some z ∧ between 0 100 (int_to_float z).
Proof.
  intros Hz. pose proof traits_exact as Hall.
  rewrite forallb_forall in Hall. specialize (Hall z).
  assert (Hin : In z (map Z.of_nat (seq 0 101))).
  { apply in_map_iff. exists (Z.to_nat z). split; [lia|]. apply in_seq. lia. }
  specialize (Hall Hin). unfold trait_exact in Hall.
  apply andb_prop in Hall as [Hall Hhi]. apply andb_prop in Hall as [Htr Hlo].
  split; [|split; assumption].
  destruct (float_trunc (int_to_float z)) as [z'|]; [|discriminate].
  apply Z.eqb_eq in Htr. now subst.
Qed.

End MoreFloatFacts.


(** * More about one model *)

Section MoreModelProperties.

Context {world : Type} {py : Interpreter} {mem : Memory world}.

Implicit Types (m : model world) (st : run_state world).
Implicit Types (risk : string) (msg : text) (features base : list float).

(** X5.  A valid request reaches the models exactly: each of the five
    features converts back to the integer of its trait, in the order
    openness, conscientiousness, extraversion, agreeableness,
    neuroticism, and lies in [0.0, 100.0]. *)
Theorem X5_traits_reach_models_exactly (input : PersonalityInput) :
  valid_input input →
  map float_trunc (base_features input)
  = map Some [openness input; conscientiousness input; extraversion input;
              agreeableness input; neuroticism input]
  ∧ Forall (between 0 100) (base_features input).
Proof.
  unfold valid_input, base_features. intros Hv.
  repeat (apply Forall_cons_1 in Hv as [?%trait_float Hv]).
  repeat match goal with H : _ ∧ _ |- _ => destruct H as [? ?] end.
  split.
  - cbn [map]. congruence.
  - repeat (apply Forall_cons_2; [assumption|]). apply Forall_nil_2.
Qed.

(** X6.  For an expected width [w ≥ 0] and a base vector of any length,
    reshaping either yields a vector of exactly [w] entries, in which
    the entries shared with the base vector are the features, in place,
    and every entry beyond the base vector is 0.0; or it raises the
    exception of a padding that is not built.  It yields the vector
    exactly when the interpreter builds the list of the [w - len(base)]
    missing zeros, which it always does when none is missing. *)
Theorem X6_reshape_to_expected_width base w st :
  0 ≤ w →
  (∀ v st', reshape (Some w) base st = (inr v, st') →
     st' = st
     ∧ len v = w
     ∧ (∀ i : nat, Z.of_nat i < Z.min w (len base) → v !! i = base !! i)
     ∧ (∀ i : nat, len base ≤ Z.of_nat i < w → v !! i = Some 0%float))
  ∧ (padding_fits (ext st) (w - len base) = true →
     ∃ v, reshape (Some w) base st = (inr v, st))
  ∧ (padding_fits (ext st) (w - len base) = false →
     len base < w
     ∧ reshape (Some w) base st
       = (inl (Escaped (padding_exception (w - len base))), st))
  ∧ (w ≤ len base → padding_fits (ext st) (w - len base) = true).
Proof.
  intros Hw. split; [|split; [|split]].
  - intros v st' E. split; [eapply reshape_returns, E|].
    destruct (Z.lt_trichotomy w (len base)) as [H|[H|H]].
    + rewrite reshape_slice in E by assumption. injection E as <- _.
      unfold py_slice_to, len in *. destruct (Z.ltb_spec w 0); [lia|].
      split; [|split].
      * rewrite length_take. lia.
      * intros i Hi. apply lookup_take_lt. lia.
      * intros i Hi. lia.
    + rewrite reshape_same in E by assumption. injection E as <- _.
      split; [congruence|]. split; [reflexivity|]. intros i Hi. lia.
    + destruct (padding_fits (ext st) (w - len base)) eqn:F.
      * rewrite reshape_pad_fits in E by assumption. injection E as <- _.
        unfold zeros, len in *. split; [|split].
        -- rewrite length_app, length_replicate. lia.
        -- intros i Hi. apply lookup_app_l. lia.
        -- intros i Hi. rewrite lookup_app_r by lia. apply lookup_replicate_2. lia.
      * rewrite reshape_pad_fails in E by assumption. discriminate E.
  - intros F. destruct (Z.lt_trichotomy w (len base)) as [H|[H|H]].
    + rewrite reshape_slice by assumption. eauto.
    + rewrite reshape_same by assumption. eauto.
    + rewrite reshape_pad_fits by assumption. eauto.
  - intros F.
    assert (H : len base < w).
    { unfold padding_fits in F. apply orb_false_elim in F as [F _].
      apply Z.leb_gt in F. lia. }
    split; [exact H|]. now apply reshape_pad_fails.
  - intros H. unfold padding_fits.
    destruct (Z.leb_spec (w - len base) 0); [reflexivity|lia].
Qed.

(** X7.  A negative expected count is not rejected: the slice drops that
    many features from the end of the vector (all of them when the count
    reaches the length), and the model is called with what is left: the
    log shows it, and what [predict] does on that vector decides the
    outcome. *)
Theorem X7_negative_width_drops_trailing_features risk m base st w :
  detect_expected m = Some w →
  w < 0 →
  ∃ kept : nat,
    Z.of_nat kept = Z.max 0 (len base + w)
    ∧ reshape (Some w) base st = (inr (take kept base), st)
    ∧ calls (score_model risk m base st).2 !! length (calls st)
      = Some (risk, take kept base)
    ∧ first_call_with risk m base st (take kept base).
Proof.
  intros E Hw. exists (length base - Z.to_nat (- w))%nat.
  assert (R : reshape (Some w) base st
              = (inr (take (length base - Z.to_nat (- w)) base), st)).
  { rewrite reshape_slice by (unfold len; lia). now rewrite slice_negative. }
  split; [unfold len; lia|]. split; [exact R|]. rewrite <- E in R.
  split; [now apply score_model_first_call|now apply score_model_first_call_with].
Qed.

(** X8.  An exception of the first call that is not a [ValueError] but
    is an [Exception] fails the model at once with "Prediction error: "
    and its message, after that single call: there is no retry, whatever
    the message says. *)
Theorem X8_other_exception_is_not_retried risk m base st features e st1 :
  reshape (detect_expected m) base st = (inr features, st) →
  predict_first risk m features st = (inl e, st1) →
  exn_class_of e = OtherException →
  score_model risk m base st
  = (inl (Raised (mkHTTPException 500 (codes "Prediction error: " ++ exn_str e))), st1)
  ∧ calls st1 = calls st ++ [(risk, features)].
Proof.
  intros R P C. split.
  - apply (score_model_abort _ _ _ _ _ _ _ R). now apply obtain_other_exception.
  - pose proof (predict_first_calls risk m features st) as Hc.
    now rewrite P in Hc.
Qed.

(** X9.  Every failure of a model is one of these: an [HTTPException]
    with status 500 whose detail is "Prediction error: ...", "Prediction
    error after padding: ..." or "Model returned non-numeric prediction
    for" that model's risk name; or an exception that leaves the handler
    as it is, namely the [OverflowError] or [MemoryError] of a padding
    that is not built, the [ValueError] of [int()] on a width beyond the
    digit limit, or an exception of [predict] outside [Exception]. *)
Theorem X9_failures_of_a_model risk m base st err st1 :
  score_model risk m base st = (inl err, st1) →
  (∃ e : HTTPException,
     err = Raised e
     ∧ status_code e = 500
     ∧ ((∃ msg, detail e = codes "Prediction error: " ++ msg)
        ∨ (∃ msg, detail e = codes "Prediction error after padding: " ++ msg)
        ∨ detail e = codes "Model returned non-numeric prediction for " ++ codes risk))
  ∨ (∃ n, 0 < n ∧ padding_fits (ext st1) n = false
          ∧ err = Escaped (padding_exception n))
  ∨ err = Escaped IntValueError
  ∨ (∃ e, exn_class_of e = NoException ∧ err = Escaped (FromModel e)).
Proof.
  destruct (reshape_cases (detect_expected m) base st) as [[features R]|[err0 R]].
  - unfold score_model, bind. rewrite R.
    destruct (obtain_prediction risk m features st) as [[err1|pred] st0] eqn:O.
    + intros [= <- <-].
      destruct (obtain_error_shape _ _ _ _ _ _ O)
        as [[msg [->| ->]]|[(n & Hn & F & ->)|[->|(e & C & ->)]]]; eauto 10.
    + unfold to_score. destruct (py_float pred); [discriminate|].
      intros [= <- <-]. left. eexists. split; [reflexivity|].
      split; [reflexivity|]. right. right. reflexivity.
  - rewrite (score_model_no_padding _ _ _ _ _ _ R). intros [= <- <-].
    apply reshape_raises in R as (_ & w & _ & Hw & F & ->).
    right. left. exists (w - len base). split; [lia|]. split; [exact F|reflexivity].
Qed.

(** X10.  A prediction that is a NaN is not an error: it is scored
    100.0.  Infinite predictions are scored 100.0 and 0.0. *)
Theorem X10_nan_prediction_scores_100 risk (v : float) st :
  is_nan v = true →
  clamp v = 100%float
  ∧ to_score risk (PyFloat v) st = (inr 100%float, st)
  ∧ clamp infinity = 100%float
  ∧ clamp neg_infinity = 0%float.
Proof.
  intros Hn.
  assert (Hc : clamp v = 100%float).
  { rewrite clamp_cases. now rewrite (nan_not_below v 100 Hn). }
  repeat split; try reflexivity; [exact Hc|].
  unfold to_score. cbn [py_float]. now rewrite Hc.
Qed.

(** X11.  Clamping twice is clamping once. *)
Theorem X11_clamp_idempotent (v : float) : clamp (clamp v) = clamp v.
Proof.
  destruct (clamp_inside (clamp v) (clamp_between v)) as [_ Hsame].
  apply Hsame, clamp_not_negative_zero.
Qed.

End MoreModelProperties.

(** * More about the pattern *)

Section MorePatternFacts.

Context {py : Interpreter}.

Implicit Types (s run rest pre suf msg : text) (cls : N → bool).

(** The text a group captures. *)
Lemma consumed_app run rest : consumed (run ++ rest) rest = run.
Proof.
  unfold consumed. rewrite length_app.
  replace (length run + length rest - length rest)%nat with (length run) by lia.
  apply take_app_length.
Qed.

Lemma match_lit_inv (lit s rest : text) :
  match_lit lit s = Some rest → s = lit ++ rest.
Proof.
  revert s. induction lit as [|a lit IH]; intros s.
  - intros [= ->]. reflexivity.
  - destruct s as [|b s]; [discriminate|]. cbn [match_lit].
    destruct (N.eqb_spec a b) as [->|]; [|discriminate].
    intros E. apply IH in E as ->. reflexivity.
Qed.

Lemma run_of_one cls (c : N) : cls c = true → run_of cls [c].
Proof. intros Hc. split; [discriminate|]. repeat constructor. exact Hc. Qed.

Lemma run_of_cons cls (c : N) s : cls c = true → run_of cls s → run_of cls (c :: s).
Proof. intros Hc [_ Hs]. split; [discriminate|]. now constructor. Qed.

(** What a successful [cls+] consumed. *)
Lemma match_plus_inv {R} cls s (k : text → option R) (x : R) :
  match_plus cls s k = Some x →
  ∃ run rest, s = run ++ rest ∧ run_of cls run ∧ k rest = Some x.
Proof.
  induction s as [|c s IH]; [discriminate|]. cbn [match_plus].
  destruct (cls c) eqn:Hc; [|discriminate].
  destruct (match_plus cls s k) as [y|] eqn:E.
  - intros [= ->]. destruct (IH eq_refl) as (run & rest & -> & Hrun & Hk).
    exists (c :: run), rest. split; [reflexivity|]. split; [|exact Hk].
    now apply run_of_cons.
  - intros Hk. exists [c], s. split; [reflexivity|]. split; [|exact Hk].
    now apply run_of_one.
Qed.

Lemma re_search_unfold (r : regex) s :
  re_search r s =
    match re_match r s [] (λ _ g, Some g) with
    | Some g => Some g
    | None =>
        match s with
        | [] => None
        | _ :: rest => re_search r rest
        end
    end.
Proof. destruct s; reflexivity. Qed.

(** A search that succeeds matched at some position. *)
Lemma re_search_inv (r : regex) s (mt : list text) :
  re_search r s = Some mt →
  ∃ pre suf, s = pre ++ suf ∧ re_match r suf [] (λ _ g, Some g) = Some mt.
Proof.
  induction s as [|c s IH]; rewrite re_search_unfold.
  - destruct (re_match r [] [] _) as [g|] eqn:E; [|discriminate].
    intros [= ->]. exists [], []. split; [reflexivity|exact E].
  - destruct (re_match r (c :: s) [] _) as [g|] eqn:E.
    + intros [= ->]. exists [], (c :: s). split; [reflexivity|exact E].
    + intros Hs. destruct (IH Hs) as (pre & suf & -> & Hm).
      exists (c :: pre), suf. split; [reflexivity|exact Hm].
Qed.

(** A match at some position makes the search succeed. *)
Lemma re_search_found (r : regex) pre suf (mt : list text) :
  re_match r suf [] (λ _ g, Some g) = Some mt →
  ∃ mt', re_search r (pre ++ suf) = Some mt'.
Proof.
  intros Hm. induction pre as [|c pre IH].
  - exists mt. cbn [app]. rewrite re_search_unfold. now rewrite Hm.
  - cbn [app]. rewrite re_search_unfold.
    destruct (re_match r (c :: pre ++ suf) [] _) as [g|]; [eauto|exact IH].
Qed.

Lemma digit_value_nonneg (c : N) : unicode_decimal_digits → 0 ≤ digit_value c.
Proof.
  intros [_ Hrange]. unfold digit_value.
  destruct (decimal c) as [d|] eqn:E; cbn [default]; [|lia].
  apply (Hrange c d E).
Qed.

Lemma int_of_digits_from_nonneg s : ∀ acc,
  unicode_decimal_digits → 0 ≤ acc → 0 ≤ int_of_digits_from digit_value acc s.
Proof.
  induction s as [|c s IH]; intros acc Hu Hacc; [exact Hacc|].
  cbn [int_of_digits_from]. apply IH; [exact Hu|].
  pose proof (digit_value_nonneg c Hu). lia.
Qed.

(** [int()] of a run of digits fails by the digit limit only. *)
Lemma py_int_digits_cases s :
  (py_int_digits s = None
   ∧ int_max_str_digits ≠ 0%nat ∧ (int_max_str_digits < length s)%nat)
  ∨ (py_int_digits s = Some (int_of_digits s)
     ∧ (int_max_str_digits = 0%nat ∨ (length s ≤ int_max_str_digits)%nat)).
Proof.
  unfold py_int_digits.
  destruct (Nat.eqb_spec int_max_str_digits 0) as [E|E]; cbn [negb andb].
  - right. auto.
  - destruct (Nat.ltb_spec int_max_str_digits (length s)).
    + left. auto.
    + right. auto.
Qed.

(** The shape of every text the pattern matches. *)
Lemma shape_match_inv suf (mt : list text) :
  re_match SHAPE_RE suf [] (λ _ g, Some g) = Some mt →
  ∃ s1 d1 s2 s3 d2 post,
    suf = codes "expected" ++ s1 ++ d1 ++ s2 ++ codes "got" ++ s3 ++ d2 ++ post
    ∧ run_of (one_of (codes ": ")) s1 ∧ run_of is_digit d1
    ∧ run_of (one_of (codes ", ")) s2 ∧ run_of (one_of (codes ": ")) s3
    ∧ run_of is_digit d2 ∧ mt = [d1; d2].
Proof.
  unfold SHAPE_RE, re_concat. cbn [foldr re_match].
  destruct (match_lit (codes "expected") suf) as [r0|] eqn:L0; [|discriminate].
  apply match_lit_inv in L0 as ->. intros Hm.
  apply match_plus_inv in Hm as (s1 & r1 & -> & Hs1 & Hm).
  apply match_plus_inv in Hm as (d1 & r2 & -> & Hd1 & Hm).
  rewrite consumed_app in Hm.
  apply match_plus_inv in Hm as (s2 & r3 & -> & Hs2 & Hm).
  destruct (match_lit (codes "got") r3) as [r4|] eqn:L1; [|discriminate].
  apply match_lit_inv in L1 as ->.
  apply match_plus_inv in Hm as (s3 & r5 & -> & Hs3 & Hm).
  apply match_plus_inv in Hm as (d2 & r6 & -> & Hd2 & Hm).
  rewrite consumed_app in Hm. cbn [match_lit] in Hm. injection Hm as <-.
  exists s1, d1, s2, s3, d2, r6.
  split; [reflexivity|]. repeat (split; [assumption|]). reflexivity.
Qed.

(** ** Texts the pattern is sure to match *)

Lemma match_plus_stops {R} cls s (k : text → option R) :
  stops cls s → match_plus cls s k = None.
Proof.
  destruct s as [|c s]; [reflexivity|]. cbn [stops match_plus]. now intros ->.
Qed.

(** Followed by a character outside the class, [cls+] takes the whole
    run. *)
Lemma match_plus_run {R} cls run rest (k : text → option R) (x : R) :
  run_of cls run → stops cls rest → k rest = Some x →
  match_plus cls (run ++ rest) k = Some x.
Proof.
  intros [Hne Hrun] Hstop Hk. induction run as [|c run IH]; [contradiction|].
  apply Forall_cons_1 in Hrun as [Hc Hrun].
  cbn [app match_plus]. rewrite Hc. destruct run as [|c' run].
  - cbn [app]. now rewrite (match_plus_stops cls rest k Hstop).
  - rewrite IH; [reflexivity|discriminate|exact Hrun].
Qed.

(** A run of one class is the end of a run of a class disjoint from it. *)
Lemma run_stops cls (cls' : N → bool) run rest :
  (∀ c, cls c = true → cls' c = false) →
  run_of cls run → stops cls' (run ++ rest).
Proof.
  intros Hdis [Hne Hrun]. destruct run as [|c run]; [contradiction|].
  apply Forall_cons_1 in Hrun as [Hc _]. cbn [app stops]. now apply Hdis.
Qed.

Lemma one_of_elim (cs : text) (c : N) : one_of cs c = true → c ∈ cs.
Proof. unfold one_of. apply bool_decide_eq_true_1. Qed.

(** The separators of the pattern, all ASCII, are no decimal digits. *)
Lemma separator_not_digit (c : N) :
  unicode_decimal_digits →
  one_of (codes ": ") c = true ∨ one_of (codes ", ") c = true → is_digit c = false.
Proof.
  intros [Hascii _] Hc.
  assert (Hs : c = 58%N ∨ c = 32%N ∨ c = 44%N).
  { destruct Hc as [Hc|Hc]; apply one_of_elim in Hc;
      change (codes ": ") with [58; 32]%N in *;
      change (codes ", ") with [44; 32]%N in *;
      repeat (apply elem_of_cons in Hc as [->|Hc]; [auto|]);
      now apply elem_of_nil in Hc. }
  unfold is_digit. apply bool_decide_eq_false_2.
  destruct Hs as [->|[->| ->]]; rewrite Hascii by reflexivity;
    cbn; intros [? [=]].
Qed.

Lemma digit_not_separator (c : N) :
  unicode_decimal_digits →
  is_digit c = true →
  one_of (codes ": ") c = false ∧ one_of (codes ", ") c = false.
Proof.
  intros Hu Hd. split.
  - destruct (one_of (codes ": ") c) eqn:E; [|reflexivity].
    rewrite separator_not_digit in Hd by auto. discriminate.
  - destruct (one_of (codes ", ") c) eqn:E; [|reflexivity].
    rewrite separator_not_digit in Hd by auto. discriminate.
Qed.

(** The pattern matches a text that starts with the canonical form. *)
Lemma shape_match_canonical (s1 d1 s2 s3 d2 post : text) :
  unicode_decimal_digits →
  run_of (one_of (codes ": ")) s1 → run_of is_digit d1 →
  run_of (one_of (codes ", ")) s2 → run_of (one_of (codes ": ")) s3 →
  run_of is_digit d2 → stops is_digit post →
  re_match SHAPE_RE
    (codes "expected" ++ s1 ++ d1 ++ s2 ++ codes "got" ++ s3 ++ d2 ++ post)
    [] (λ _ g, Some g)
  = Some [d1; d2].
Proof.
  intros Hu Hs1 Hd1 Hs2 Hs3 Hd2 Hpost.
  unfold SHAPE_RE, re_concat. cbn [foldr re_match].
  rewrite match_lit_app.
  apply match_plus_run; [exact Hs1| |].
  { apply run_stops with is_digit; [|exact Hd1]. intros c Hc.
    now apply digit_not_separator. }
  apply match_plus_run; [exact Hd1| |].
  { apply run_stops with (one_of (codes ", ")); [|exact Hs2]. intros c Hc.
    apply separator_not_digit; auto. }
  rewrite consumed_app.
  apply match_plus_run; [exact Hs2|reflexivity|].
  rewrite match_lit_app.
  apply match_plus_run; [exact Hs3| |].
  { apply run_stops with is_digit; [|exact Hd2]. intros c Hc.
    now apply digit_not_separator. }
  apply match_plus_run; [exact Hd2|exact Hpost|].
  rewrite consumed_app. reflexivity.
Qed.

End MorePatternFacts.

(** * Properties of the pattern *)

Section PatternProperties.

Context {py : Interpreter}.

(** X12.  A message the handler's search matches has the shape
    [... expected <sep> N1 <sep> got <sep> N2 ...]: both groups are
    non-empty runs of decimal digits, of any script.  The conversion of
    group 1 to an integer fails only when the run is longer than the
    digit limit of [int()], and the width it yields otherwise is not
    negative. *)
Theorem X12_matched_message_shape (msg : text) (mt : list text) :
  unicode_decimal_digits →
  re_search SHAPE_RE msg = Some mt →
  ∃ pre s1 d1 s2 s3 d2 post,
    msg = pre ++ codes "expected" ++ s1 ++ d1 ++ s2 ++ codes "got" ++ s3 ++ d2 ++ post
    ∧ run_of (one_of (codes ": ")) s1 ∧ run_of is_digit d1
    ∧ run_of (one_of (codes ", ")) s2 ∧ run_of (one_of (codes ": ")) s3
    ∧ run_of is_digit d2
    ∧ mt = [d1; d2]
    ∧ group mt 1 = d1
    ∧ (py_int_digits (group mt 1) = None
       ↔ int_max_str_digits ≠ 0%nat ∧ (int_max_str_digits < length d1)%nat)
    ∧ (∀ n1, py_int_digits (group mt 1) = Some n1 → 0 ≤ n1).
Proof.
  intros Hu Hs. apply re_search_inv in Hs as (pre & suf & -> & Hm).
  apply shape_match_inv in Hm
    as (s1 & d1 & s2 & s3 & d2 & post & -> & Hs1 & Hd1 & Hs2 & Hs3 & Hd2 & ->).
  exists pre, s1, d1, s2, s3, d2, post.
  split; [reflexivity|]. repeat (split; [assumption|]).
  split; [reflexivity|]. split; [reflexivity|].
  change (group [d1; d2] 1) with d1. split.
  - destruct (py_int_digits_cases d1) as [(E & H0 & Hl)|(E & H)]; rewrite E.
    + split; auto.
    + split; [discriminate|]. intros [H0 Hl]. destruct H; [contradiction|lia].
  - intros n1 E.
    destruct (py_int_digits_cases d1) as [(E' & _)|(E' & _)]; rewrite E' in E;
      [discriminate|].
    injection E as <-. apply int_of_digits_from_nonneg; [exact Hu|lia].
Qed.

(** X13.  A message that starts with "expected", a run of ':' or ' ', a
    run of decimal digits, a run of ',' or ' ', "got", a run of ':' or
    ' ' and a run of decimal digits that ends there is matched with
    exactly those two runs of digits as groups; with any text in front
    of it the search still finds a match. *)
Theorem X13_canonical_message_is_matched (pre s1 d1 s2 s3 d2 post : text) :
  unicode_decimal_digits →
  run_of (one_of (codes ": ")) s1 → run_of is_digit d1 →
  run_of (one_of (codes ", ")) s2 → run_of (one_of (codes ": ")) s3 →
  run_of is_digit d2 → stops is_digit post →
  re_search SHAPE_RE
    (codes "expected" ++ s1 ++ d1 ++ s2 ++ codes "got" ++ s3 ++ d2 ++ post)
  = Some [d1; d2]
  ∧ ∃ mt, re_search SHAPE_RE
            (pre ++ codes "expected" ++ s1 ++ d1 ++ s2 ++ codes "got" ++ s3 ++ d2 ++ post)
          = Some mt.
Proof.
  intros Hu Hs1 Hd1 Hs2 Hs3 Hd2 Hpost.
  pose proof (shape_match_canonical s1 d1 s2 s3 d2 post Hu Hs1 Hd1 Hs2 Hs3 Hd2 Hpost)
    as Hm.
  split.
  - rewrite re_search_unfold. now rewrite Hm.
  - eapply re_search_found, Hm.
Qed.

End PatternProperties.

(** * More about a request *)

Section MoreRequestFacts.

Context {world : Type} {py : Interpreter} {mem : Memory world}.

Implicit Types (m : model world) (st : run_state world).
Implicit Types (risk : string) (base : list float) (results : gmap string float).
Implicit Types (items models : list (string * model world)).



(** A model fails with a response of status 500 or with an exception
    that leaves the handler; never like the response model. *)
Lemma score_model_error_kind risk m base st err st1 :
  score_model risk m base st = (inl err, st1) →
  (∃ e : HTTPException, err = Raised e ∧ status_code e = 500)
  ∨ (∃ x, err = Escaped x).
Proof.
  destruct (reshape_cases (detect_expected m) base st) as [[features R]|[err0 R]].
  - unfold score_model, bind. rewrite R.
    destruct (obtain_prediction risk m features st) as [[err1|pred] st0] eqn:O.
    + intros [= <- <-].
      destruct (obtain_error_shape _ _ _ _ _ _ O)
        as [[msg [->| ->]]|[(n & _ & _ & ->)|[->|(e & _ & ->)]]]; eauto.
    + unfold to_score. destruct (py_float pred); [discriminate|].
      intros [= <- <-]. eauto.
  - rewrite (score_model_no_padding _ _ _ _ _ _ R). intros [= <- <-].
    apply reshape_raises in R as (_ & w & _ & _ & _ & ->). eauto.
Qed.

Lemma predict_loop_error_kind items : ∀ base results st err st1,
  predict_loop items base results st = (inl err, st1) →
  (∃ e : HTTPException, err = Raised e ∧ status_code e = 500)
  ∨ (∃ x, err = Escaped x).
Proof.
  induction items as [|[risk m] items IH]; intros base results st err st1.
  - discriminate.
  - rewrite predict_loop_cons.
    destruct (score_model risk m base st) as [[err0|val] st0] eqn:E.
    + intros [= <- <-]. eapply score_model_error_kind, E.
    + apply IH.
Qed.

(** The response model accepts every dictionary that holds the five
    keys. *)
Lemma kwargs_accepted results :
  (∀ k, k ∈ RISK_NAMES → is_Some (results !! k)) →
  is_Some (RiskScores_of_kwargs results).
Proof.
  intros Hkeys. unfold RiskScores_of_kwargs.
  destruct (Hkeys "phishing_risk") as [a ->]; [unfold RISK_NAMES; set_solver|].
  destruct (Hkeys "weak_password_risk") as [b ->]; [unfold RISK_NAMES; set_solver|].
  destruct (Hkeys "oversharing_risk") as [c ->]; [unfold RISK_NAMES; set_solver|].
  destruct (Hkeys "emotional_manipulation_risk") as [d ->];
    [unfold RISK_NAMES; set_solver|].
  destruct (Hkeys "update_ignorance_risk") as [e ->];
    [unfold RISK_NAMES; set_solver|].
  cbn [mbind option_bind]. eauto.
Qed.

End MoreRequestFacts.

(** * More properties of a whole request *)

Section MoreRequestProperties.

Context {world : Type} {py : Interpreter} {mem : Memory world}.

Implicit Types (m : model world) (st : run_state world).
Implicit Types (risk : string) (base : list float) (results : gmap string float).
Implicit Types (items models : list (string * model world)).


(** X15.  With the models the startup loop loaded, the response model
    never rejects the results of the loop: a request that fails fails
    for one of the models, with an [HTTPException] of status 500 or with
    one of the exceptions that leave the handler as they are. *)
Theorem X15_loaded_request_fails_for_a_model path_exists joblib_load models
    input st failed st' :
  load_models path_exists joblib_load = inr models →
  predict_risks models input st = (inl failed, st') →
  failed ≠ ResponseInvalid
  ∧ predict_loop models (base_features input) ∅ st = (inl failed, st')
  ∧ ((∃ err : HTTPException, failed = Raised err ∧ status_code err = 500)
     ∨ (∃ x, failed = Escaped x)).
Proof.
  intros Hload. unfold predict_risks, bind.
  destruct (predict_loop models (base_features input) ∅ st)
    as [[err|results] st1] eqn:E.
  - intros [= <- <-].
    pose proof (predict_loop_error_kind _ _ _ _ _ _ E) as Hk.
    split; [|split; [reflexivity|exact Hk]].
    destruct Hk as [(e & -> & _)|(x & ->)]; discriminate.
  - pose proof (predict_loop_returns _ _ _ _ _ _ E) as Hall.
    destruct (predict_loop_ok models (base_features input) ∅ st Hall)
      as (results' & st2 & E' & Hdom & _).
    rewrite E in E'. injection E' as <- <-.
    rewrite (load_models_keys _ _ _ Hload) in Hdom.
    destruct (kwargs_accepted results) as [scores ->]; [|discriminate].
    intros k Hk. apply elem_of_dom. rewrite Hdom. set_solver.
Qed.

End MoreRequestProperties.
(** * Properties of the response model *)

Section ResponseProperties.

(** X16.  The response model and its dictionary are two views of the
    same five scores: building the model from the dictionary of a model
    gives that model back, and a dictionary is rejected exactly when it
    lacks one of the five risk names (no score is ever defaulted). *)
Theorem X16_response_round_trip :
  (∀ scores, RiskScores_of_kwargs (RiskScores_dict scores) = Some scores)
  ∧ (∀ results : gmap string float,
       RiskScores_of_kwargs results = None
       ↔ ∃ k, k ∈ RISK_NAMES ∧ results !! k = None).
Proof.
  split.
  - intros [a b c d e]. unfold RiskScores_of_kwargs, RiskScores_dict.
    cbn [phishing_risk weak_password_risk oversharing_risk
         emotional_manipulation_risk update_ignorance_risk].
    now simplify_map_eq.
  - intros results. unfold RiskScores_of_kwargs, RISK_NAMES. split.
    + destruct (results !! "phishing_risk") eqn:E1; [|exists "phishing_risk"; split; [set_solver|done]].
      destruct (results !! "weak_password_risk") eqn:E2;
        [|exists "weak_password_risk"; split; [set_solver|done]].
      destruct (results !! "oversharing_risk") eqn:E3;
        [|exists "oversharing_risk"; split; [set_solver|done]].
      destruct (results !! "emotional_manipulation_risk") eqn:E4;
        [|exists "emotional_manipulation_risk"; split; [set_solver|done]].
      destruct (results !! "update_ignorance_risk") eqn:E5;
        [|exists "update_ignorance_risk"; split; [set_solver|done]].
      discriminate.
    + intros (k & Hk & Hnone).
      repeat (apply elem_of_cons in Hk as [->|Hk];
              [rewrite Hnone; cbn;
               repeat (destruct (results !! _); cbn; try reflexivity)|]).
      now apply elem_of_nil in Hk.
Qed.

End ResponseProperties.


(** * The sample interpreter *)

Lemma sample_decimal_ascii (c : N) :
  (c < 128)%N →
  Samples.sample_decimal c
  = if (48 <=? c)%N && (c <=? 57)%N then Some (Z.of_N c - 48) else None.
Proof.
  intros Hc. unfold Samples.sample_decimal, Samples.block_of, Samples.digit_blocks.
  cbn [find].
  destruct (N.leb_spec 48 c) as [H1|H1]; destruct (N.leb_spec c 57) as [H2|H2];
    destruct (N.ltb_spec c (48 + 10)) as [H3|H3]; cbn [andb]; try lia;
    try reflexivity.
  all: repeat match goal with
    | |- context [(?a <=? ?b)%N] =>
        destruct (N.leb_spec a b); [lia|cbn [andb]]
    end; reflexivity.
Qed.

Lemma sample_decimal_range (c : N) (d : Z) :
  Samples.sample_decimal c = Some d → 0 ≤ d ≤ 9.
Proof.
  unfold Samples.sample_decimal, Samples.block_of. intros H.
  destruct (find _ Samples.digit_blocks) as [start|] eqn:Hf; [|discriminate].
  apply find_some in Hf as [_ Hf]. apply andb_prop in Hf as [H1 H2].
  apply N.leb_le in H1. apply N.ltb_lt in H2.
  cbn in H. injection H as <-. lia.
Qed.

(** The table of the sample interpreter has the two properties of the
    Unicode database. *)
Lemma sample_digits_sound : unicode_decimal_digits (py := Samples.cpython).
Proof. split; [exact sample_decimal_ascii|exact sample_decimal_range]. Qed.

(** * The further properties at sample inputs *)

(** X2 when the third file is missing, and when it is there and does
    not load. *)
Lemma X2_witness :
  load_models (world := unit)
    (λ path, negb (String.eqb path "models/oversharing_risk_model.pkl"))
    (λ _, inr (Samples.constant (PyFloat 50)))
  = inl (ModelFileNotFound "Model file not found: models/oversharing_risk_model.pkl")
  ∧ load_models (world := unit) (λ _, true)
      (λ path, if String.eqb path "models/oversharing_risk_model.pkl"
               then inl (PyExn OtherException (codes "invalid load key"))
               else inr (Samples.constant (PyFloat 50)))
    = inl (LoadRaised (PyExn OtherException (codes "invalid load key"))).
Proof.
  split.
  - refine (proj1 (X2_startup_fails_at_first_bad_file
      (λ path, negb (String.eqb path "models/oversharing_risk_model.pkl"))
      (λ _, inr (Samples.constant (PyFloat 50)))
      [ ("phishing_risk", "models/phishing_risk_model.pkl");
        ("weak_password_risk", "models/weak_password_risk_model.pkl") ]
      ("oversharing_risk", "models/oversharing_risk_model.pkl")
      [ ("emotional_manipulation_risk", "models/emotional_manipulation_risk_model.pkl");
        ("update_ignorance_risk", "models/update_ignorance_risk_model.pkl") ]
      eq_refl _) eq_refl).
    repeat (apply Forall_cons_2; [split; [reflexivity|eexists; reflexivity]|]).
    apply Forall_nil_2.
  - refine (proj2 (X2_startup_fails_at_first_bad_file
      (λ _, true)
      (λ path, if String.eqb path "models/oversharing_risk_model.pkl"
               then inl (PyExn OtherException (codes "invalid load key"))
               else inr (Samples.constant (PyFloat 50)))
      [ ("phishing_risk", "models/phishing_risk_model.pkl");
        ("weak_password_risk", "models/weak_password_risk_model.pkl") ]
      ("oversharing_risk", "models/oversharing_risk_model.pkl")
      [ ("emotional_manipulation_risk", "models/emotional_manipulation_risk_model.pkl");
        ("update_ignorance_risk", "models/update_ignorance_risk_model.pkl") ]
      eq_refl _) _ eq_refl eq_refl).
    repeat (apply Forall_cons_2; [split; [reflexivity|eexists; reflexivity]|]).
    apply Forall_nil_2.
Defined.

(** X3 when all five files are there. *)
Lemma X3_witness :
  root (Samples.five (Samples.constant (PyFloat 50)))
  = {| status := "healthy"; models_loaded := 5; available_predictions := RISK_NAMES |}.
Proof.
  apply (X3_health_after_startup (λ _, true) (λ _, inr (Samples.constant (PyFloat 50)))).
  vm_compute. reflexivity.
Defined.

(** X5 at a profile that holds both bounds. *)
Lemma X5_witness :
  map float_trunc (base_features (Samples.profile 0 50 100 7 33))
  = [Some 0; Some 50; Some 100; Some 7; Some 33]
  ∧ Forall (between 0 100) (base_features (Samples.profile 0 50 100 7 33)).
Proof.
  apply (X5_traits_reach_models_exactly (Samples.profile 0 50 100 7 33)).
  unfold valid_input, Samples.profile.
  cbn [openness conscientiousness extraversion agreeableness neuroticism].
  repeat (apply Forall_cons_2; [lia|]). apply Forall_nil_2.
Defined.

(** X6 at a vector of three features and an expected width of five. *)
Lemma X6_witness :
  ∃ v, reshape (py := Samples.cpython) (mem := Samples.roomy)
         (Some 5) [10; 20; 30]%float (Samples.start ())
       = (inr v, Samples.start ()).
Proof.
  destruct (@X6_reshape_to_expected_width unit Samples.cpython Samples.roomy
    [10; 20; 30]%float 5 (Samples.start ()) ltac:(lia)) as (_ & Hfits & _).
  exact (Hfits eq_refl).
Defined.

(** X7 at a model whose [n_features_in_] is -1: four features are left. *)
Lemma X7_witness :
  ∃ kept : nat,
    Z.of_nat kept = Z.max 0 (len [10; 20; 30; 40; 50]%float + -1)
    ∧ reshape (py := Samples.cpython) (mem := Samples.roomy)
        (Some (-1)) [10; 20; 30; 40; 50]%float (Samples.start ())
      = (inr (take kept [10; 20; 30; 40; 50]%float), Samples.start ())
    ∧ calls (score_model (py := Samples.cpython) (mem := Samples.roomy) "phishing_risk"
               (Samples.stateless [("n_features_in_", PyInt (-1))] (λ _, inr [PyFloat 50]))
               [10; 20; 30; 40; 50]%float (Samples.start ())).2
        !! length (calls (Samples.start ()))
      = Some ("phishing_risk", take kept [10; 20; 30; 40; 50]%float)
    ∧ first_call_with (py := Samples.cpython) (mem := Samples.roomy) "phishing_risk"
        (Samples.stateless [("n_features_in_", PyInt (-1))] (λ _, inr [PyFloat 50]))
        [10; 20; 30; 40; 50]%float (Samples.start ())
        (take kept [10; 20; 30; 40; 50]%float).
Proof.
  apply (@X7_negative_width_drops_trailing_features unit Samples.cpython Samples.roomy
    "phishing_risk"
    (Samples.stateless [("n_features_in_", PyInt (-1))] (λ _, inr [PyFloat 50]))
    [10; 20; 30; 40; 50]%float (Samples.start ()) (-1)).
  - reflexivity.
  - lia.
Defined.

(** X8 at a model that raises another exception with a message the
    pattern would match. *)
Lemma X8_witness :
  score_model (py := Samples.cpython) (mem := Samples.roomy) "phishing_risk"
    (Samples.raising [] (PyExn OtherException (codes "expected 7, got 5")))
    [10; 20; 30; 40; 50]%float (Samples.start ())
  = (inl (Raised (mkHTTPException 500 (codes "Prediction error: expected 7, got 5"))),
     {| ext := (); calls := [("phishing_risk", [10; 20; 30; 40; 50]%float)] |}).
Proof.
  exact (proj1 (@X8_other_exception_is_not_retried unit Samples.cpython Samples.roomy
    "phishing_risk"
    (Samples.raising [] (PyExn OtherException (codes "expected 7, got 5")))
    [10; 20; 30; 40; 50]%float (Samples.start ()) [10; 20; 30; 40; 50]%float
    (PyExn OtherException (codes "expected 7, got 5"))
    {| ext := (); calls := [("phishing_risk", [10; 20; 30; 40; 50]%float)] |}
    eq_refl eq_refl eq_refl)).
Defined.

(** X9 at a model whose message names a width of 4301 digits: the
    failure is the [ValueError] of [int()]. *)
Lemma X9_witness :
  (∃ e : HTTPException,
     Escaped IntValueError = Raised e
     ∧ status_code e = 500
     ∧ ((∃ msg, detail e = codes "Prediction error: " ++ msg)
        ∨ (∃ msg, detail e = codes "Prediction error after padding: " ++ msg)
        ∨ detail e = codes "Model returned non-numeric prediction for "
                     ++ codes "phishing_risk"))
  ∨ (∃ n, 0 < n
          ∧ padding_fits (mem := Samples.roomy) (py := Samples.cpython) () n = false
          ∧ Escaped IntValueError
            = Escaped (padding_exception (py := Samples.cpython) n))
  ∨ Escaped IntValueError = Escaped IntValueError
  ∨ (∃ e, exn_class_of e = NoException ∧ Escaped IntValueError = Escaped (FromModel e)).
Proof.
  apply (@X9_failures_of_a_model unit Samples.cpython Samples.roomy "phishing_risk"
    (Samples.raising []
       (PyExn ValueError (codes "expected " ++ replicate 4301 49%N ++ codes ", got 5")))
    [10; 20; 30; 40; 50]%float (Samples.start ())
    (Escaped IntValueError)
    {| ext := (); calls := [("phishing_risk", [10; 20; 30; 40; 50]%float)] |}).
  vm_compute. reflexivity.
Defined.

(** X10 at the NaN. *)
Lemma X10_witness :
  clamp nan = 100%float
  ∧ to_score (world := unit) (py := Samples.cpython)
      "phishing_risk" (PyFloat nan) (Samples.start ())
    = (inr 100%float, Samples.start ())
  ∧ clamp infinity = 100%float
  ∧ clamp neg_infinity = 0%float.
Proof.
  apply (@X10_nan_prediction_scores_100 unit Samples.cpython
    "phishing_risk" nan (Samples.start ())).
  reflexivity.
Defined.

(** X12 at a message with text around the shape. *)
Lemma X12_witness :
  ∃ pre s1 d1 s2 s3 d2 post,
    codes "X: expected 7, got 5 features"
    = pre ++ codes "expected" ++ s1 ++ d1 ++ s2 ++ codes "got" ++ s3 ++ d2 ++ post
    ∧ run_of (one_of (codes ": ")) s1
    ∧ run_of (is_digit (py := Samples.cpython)) d1
    ∧ run_of (one_of (codes ", ")) s2 ∧ run_of (one_of (codes ": ")) s3
    ∧ run_of (is_digit (py := Samples.cpython)) d2
    ∧ [codes "7"; codes "5"] = [d1; d2]
    ∧ group [codes "7"; codes "5"] 1 = d1
    ∧ (py_int_digits (py := Samples.cpython) (group [codes "7"; codes "5"] 1) = None
       ↔ int_max_str_digits (Interpreter := Samples.cpython) ≠ 0%nat
         ∧ (int_max_str_digits (Interpreter := Samples.cpython) < length d1)%nat)
    ∧ (∀ n1, py_int_digits (py := Samples.cpython) (group [codes "7"; codes "5"] 1)
             = Some n1 → 0 ≤ n1).
Proof.
  apply (@X12_matched_message_shape Samples.cpython
    (codes "X: expected 7, got 5 features") [codes "7"; codes "5"]).
  - exact sample_digits_sound.
  - vm_compute. reflexivity.
Defined.

(** X13 at "expected 7, got 5", alone and behind "ValueError: ". *)
Lemma X13_witness :
  re_search (SHAPE_RE (py := Samples.cpython))
    (codes "expected" ++ codes " " ++ codes "7" ++ codes ", " ++ codes "got"
       ++ codes " " ++ codes "5" ++ [])
  = Some [codes "7"; codes "5"]
  ∧ ∃ mt, re_search (SHAPE_RE (py := Samples.cpython))
            (codes "ValueError: " ++ codes "expected" ++ codes " " ++ codes "7"
               ++ codes ", " ++ codes "got" ++ codes " " ++ codes "5" ++ [])
          = Some mt.
Proof.
  apply (@X13_canonical_message_is_matched Samples.cpython
    (codes "ValueError: ") (codes " ") (codes "7") (codes ", ") (codes " ")
    (codes "5") []).
  - exact sample_digits_sound.
  - split; [discriminate|]. repeat (apply Forall_cons_2; [reflexivity|]). apply Forall_nil_2.
  - split; [discriminate|]. repeat (apply Forall_cons_2; [reflexivity|]). apply Forall_nil_2.
  - split; [discriminate|]. repeat (apply Forall_cons_2; [reflexivity|]). apply Forall_nil_2.
  - split; [discriminate|]. repeat (apply Forall_cons_2; [reflexivity|]). apply Forall_nil_2.
  - split; [discriminate|]. repeat (apply Forall_cons_2; [reflexivity|]). apply Forall_nil_2.
  - exact I.
Defined.

(** X15 at five loaded models that all predict [None]. *)
Lemma X15_witness :
  Raised (mkHTTPException 500
            (codes "Model returned non-numeric prediction for phishing_risk"))
  ≠ ResponseInvalid
  ∧ predict_loop (py := Samples.cpython) (mem := Samples.roomy)
      (Samples.five (Samples.constant PyNone))
      (base_features (Samples.profile 1 2 3 4 5)) ∅ (Samples.start ())
    = (inl (Raised (mkHTTPException 500
                      (codes "Model returned non-numeric prediction for phishing_risk"))),
       {| ext := (); calls := [("phishing_risk", [1; 2; 3; 4; 5]%float)] |})
  ∧ ((∃ err : HTTPException,
        Raised (mkHTTPException 500
                  (codes "Model returned non-numeric prediction for phishing_risk"))
        = Raised err
        ∧ status_code err = 500)
     ∨ (∃ x, Raised (mkHTTPException 500
                       (codes "Model returned non-numeric prediction for phishing_risk"))
             = Escaped x)).
Proof.
  apply (@X15_loaded_request_fails_for_a_model unit Samples.cpython Samples.roomy
    (λ _, true) (λ _, inr (Samples.constant PyNone))
    (Samples.five (Samples.constant PyNone)) (Samples.profile 1 2 3 4 5)
    (Samples.start ())
    (Raised (mkHTTPException 500
               (codes "Model returned non-numeric prediction for phishing_risk")))
    {| ext := (); calls := [("phishing_risk", [1; 2; 3; 4; 5]%float)] |}).
  - vm_compute. reflexivity.
  - vm_compute. reflexivity.
Defined.
